(** * Order lifecycle, stock reservation and payment reconciliation

    A shallow embedding of the order model (models/Order.js), the stock
    sub-document of the product model (models/Product.js), the order routes
    (POST /api/orders, PUT /api/orders/:id/cancel, PUT /api/orders/:id/status,
    POST /api/orders/quick-buy) and the payment routes and webhook handlers
    (routes/payment.js) of the Silver Statue back end, together with the
    properties the specification states about them.

    Conventions of the embedding.
    - JavaScript Numbers that hold quantities are integers ([Z]). Numbers
      that hold amounts of money are kept as rationals ([Q]) in the
      documents; the arithmetic and the comparisons that the handlers do
      on them are those of binary64, as the Standard Library's [SpecFloat]
      specifies them: an operand is read as the binary64 value nearest to
      it, and every sum, difference and product is rounded.
    - [new Date()] reads a clock that the embedding passes in as [now].
    - Requests are handled one at a time. Calls to the store ([save],
      [findByIdAndUpdate]) and to the payment provider resolve, and the
      writes of a handler are applied in the order the handler issues them.
      A [save] that is called while an earlier [save] of the same document
      is still under way is rejected.
      [Order.create] accepts a document that carries the required paths of
      the schema and passes its [min] validators; the verdict on the paths
      the model leaves out (the addresses) is an argument of the handler.
    - A handler's answer is the status code and message of its
      [sendErrorResponse] or [sendSuccessResponse] call. *)

From Stdlib Require Import ZArith QArith Qround Qabs Lqa DecimalString.
From Stdlib Require Import SpecFloat.
From Stdlib Require HexadecimalString.
From stdpp Require Import gmap strings list.

Local Open Scope string_scope.
Local Open Scope list_scope.
Local Open Scope Z_scope.

(** ** Data model *)

Definition ObjectId := N.

(** [orderStatus] enum of the order schema. *)
Inductive OrderStatus :=
| pending | confirmed | processing | shipped
| out_for_delivery | delivered | cancelled | returned.

(** [paymentDetails.status] enum of the order schema. *)
Inductive PaymentStatus :=
| pay_pending | pay_completed | pay_failed | pay_refunded | pay_partially_refunded.

(** [paymentDetails.method] enum of the order schema. *)
Inductive PaymentMethod := stripe | razorpay | paypal | cod.

#[global] Instance OrderStatus_eq_dec : EqDecision OrderStatus.
Proof. solve_decision. Defined.
#[global] Instance PaymentStatus_eq_dec : EqDecision PaymentStatus.
Proof. solve_decision. Defined.
#[global] Instance PaymentMethod_eq_dec : EqDecision PaymentMethod.
Proof. solve_decision. Defined.

(** The string a status is stored and printed as. *)
Definition status_name (s : OrderStatus) : string :=
  match s with
  | pending => "pending"
  | confirmed => "confirmed"
  | processing => "processing"
  | shipped => "shipped"
  | out_for_delivery => "out_for_delivery"
  | delivered => "delivered"
  | cancelled => "cancelled"
  | returned => "returned"
  end.

Record TimelineEntry := mkTimelineEntry {
  tl_status : OrderStatus;
  tl_message : option string;
  tl_timestamp : Z;
  tl_updatedBy : option ObjectId
}.

Record OrderItem := mkOrderItem {
  oi_product : ObjectId;
  oi_snapshotName : string;
  oi_quantity : Z;
  oi_price : Q;
  oi_totalPrice : Q
}.

Record OrderSummary := mkOrderSummary {
  subtotal : Q;
  tax : Q;
  shipping : Q;
  discount : Q;
  total : Q
}.

Record PaymentDetails := mkPaymentDetails {
  pd_method : PaymentMethod;
  pd_transactionId : option string;
  pd_paymentIntentId : option string;
  pd_status : PaymentStatus;
  pd_paidAt : option Z;
  pd_refundAmount : Q;
  pd_refundReason : option string
}.

Record Tracking := mkTracking {
  tr_carrier : option string;
  tr_trackingNumber : option string;
  tr_shippedAt : option Z;
  tr_deliveredAt : option Z
}.

Record Cancellation := mkCancellation {
  cn_reason : option string;
  cn_cancelledAt : option Z;
  cn_cancelledBy : option ObjectId
}.

Record Order := mkOrder {
  _id : ObjectId;
  user : ObjectId;
  items : list OrderItem;
  orderSummary : OrderSummary;
  paymentDetails : PaymentDetails;
  orderStatus : OrderStatus;
  tracking : Tracking;
  timeline : list TimelineEntry;
  cancellation : Cancellation
}.

(** Field assignments on an order document. *)
Definition set_orderStatus (s : OrderStatus) (o : Order) : Order :=
  mkOrder (_id o) (user o) (items o) (orderSummary o) (paymentDetails o)
          s (tracking o) (timeline o) (cancellation o).

Definition set_timeline (t : list TimelineEntry) (o : Order) : Order :=
  mkOrder (_id o) (user o) (items o) (orderSummary o) (paymentDetails o)
          (orderStatus o) (tracking o) t (cancellation o).

Definition set_paymentDetails (p : PaymentDetails) (o : Order) : Order :=
  mkOrder (_id o) (user o) (items o) (orderSummary o) p
          (orderStatus o) (tracking o) (timeline o) (cancellation o).

Definition set_tracking (t : Tracking) (o : Order) : Order :=
  mkOrder (_id o) (user o) (items o) (orderSummary o) (paymentDetails o)
          (orderStatus o) t (timeline o) (cancellation o).

Definition set_cancellation (c : Cancellation) (o : Order) : Order :=
  mkOrder (_id o) (user o) (items o) (orderSummary o) (paymentDetails o)
          (orderStatus o) (tracking o) (timeline o) c.

Definition set_orderSummary (s : OrderSummary) (o : Order) : Order :=
  mkOrder (_id o) (user o) (items o) s (paymentDetails o)
          (orderStatus o) (tracking o) (timeline o) (cancellation o).

(** [order.timeline.push(e)] *)
Definition timeline_push (e : TimelineEntry) (o : Order) : Order :=
  set_timeline (timeline o ++ [e]) o.

(** ** Order model methods (models/Order.js) *)

(** A thrown [Error]: its message. *)
Record JsError := mkError { err_message : string }.

Inductive Outcome (A : Type) :=
| Resolved (a : A)
| Thrown (e : JsError).
Arguments Resolved {A} a.
Arguments Thrown {A} e.

(** [_id.toString()]: 24 hexadecimal digits, in lower case. *)
Fixpoint zeros (n : nat) : string :=
  match n with
  | O => ""
  | S k => "0" +:+ zeros k
  end.

Definition ObjectId_toString (id : ObjectId) : string :=
  let digits := HexadecimalString.NilZero.string_of_uint (N.to_hex_uint id) in
  zeros (24 - String.length digits) +:+ digits.

(** The error of a [save()] that is called while another [save()] of the
    same document is under way. *)
Definition ParallelSaveError (o : Order) : JsError :=
  mkError ("Can't save() the same doc multiple times in parallel. Document: "
           +:+ ObjectId_toString (_id o)).

(** [this.save()]: the promise it returns. A save takes several turns of
    the event loop, so one that is called in the same turn as an earlier
    save of the document ([underWay]) finds that save under way and is
    rejected. *)
Definition save (underWay : bool) (o : Order) : Outcome unit :=
  if underWay then Thrown (ParallelSaveError o) else Resolved tt.

(** [orderSchema.methods.addTimelineEntry]: the promise of the save it
    starts, and the document as it leaves it. *)
Definition addTimelineEntry (now : Z) (status : OrderStatus)
    (message : option string) (updatedBy : option ObjectId) (o : Order)
    : Outcome unit * Order :=
  let o' :=
    set_orderStatus status
      (timeline_push (mkTimelineEntry status message now updatedBy) o) in
  (save false o', o').

(** The [statusTransitions] table of [updateStatus]. *)
Definition statusTransitions (s : OrderStatus) : list OrderStatus :=
  match s with
  | pending => [confirmed; cancelled]
  | confirmed => [processing; cancelled]
  | processing => [shipped; cancelled]
  | shipped => [out_for_delivery; delivered]
  | out_for_delivery => [delivered]
  | delivered => [returned]
  | cancelled => []
  | returned => []
  end.

(** [Array.prototype.includes] on a list of statuses. *)
Definition includes (l : list OrderStatus) (s : OrderStatus) : bool :=
  existsb (fun x => bool_decide (x = s)) l.

(** The [switch (newStatus)] of [updateStatus] that stamps timestamps. *)
Definition stampTimestamps (now : Z) (newStatus : OrderStatus)
    (updatedBy : option ObjectId) (o : Order) : Order :=
  match newStatus with
  | shipped =>
      let t := tracking o in
      set_tracking (mkTracking (tr_carrier t) (tr_trackingNumber t)
                               (Some now) (tr_deliveredAt t)) o
  | delivered =>
      let t := tracking o in
      set_tracking (mkTracking (tr_carrier t) (tr_trackingNumber t)
                               (tr_shippedAt t) (Some now)) o
  | cancelled =>
      let c := cancellation o in
      set_cancellation (mkCancellation (cn_reason c) (Some now) updatedBy) o
  | _ => o
  end.

(** What a call of [updateStatus] gives: what the call throws or the
    promise it returns, the document as the call leaves it, and whether the
    call has left a save of the document under way. *)
Record StatusCall := mkStatusCall {
  sc_outcome : Outcome unit;
  sc_document : Order;
  sc_saveUnderWay : bool
}.

(** [orderSchema.methods.updateStatus]. The method does not wait for the
    promise of [addTimelineEntry]: the save that [addTimelineEntry] has
    started is under way when the method calls [save] itself. *)
Definition updateStatus (now : Z) (newStatus : OrderStatus)
    (message : option string) (updatedBy : option ObjectId) (o : Order)
    : StatusCall :=
  let allowedTransitions := statusTransitions (orderStatus o) in
  if negb (includes allowedTransitions newStatus) then
    mkStatusCall
      (Thrown (mkError ("Cannot transition from " +:+ status_name (orderStatus o)
                        +:+ " to " +:+ status_name newStatus)))
      o false
  else
    let o1 := set_orderStatus newStatus o in
    let '(started, o2) := addTimelineEntry now newStatus message updatedBy o1 in
    let underWay :=
      match started with Resolved _ => true | Thrown _ => false end in
    let o3 := stampTimestamps now newStatus updatedBy o2 in
    mkStatusCall (save underWay o3) o3 underWay.

(** ** JavaScript Numbers *)

(** The parameters of binary64. *)
Definition prec : Z := 53.
Definition emax : Z := 1024.

Definition Number := spec_float.

Definition Number_of_Z (z : Z) : Number :=
  match z with
  | Z0 => S754_zero false
  | Zpos m => S754_finite false m 0
  | Zneg m => S754_finite true m 0
  end.

(** The Number that a numeric literal or a stored value denotes: the
    binary64 value nearest to it (the correctly rounded quotient of its
    numerator and denominator). *)
Definition toNumber (x : Q) : Number :=
  SFdiv prec emax (Number_of_Z (Qnum x)) (Number_of_Z (Zpos (Qden x))).

(** The rational value of a finite Number, in lowest terms. Infinities and
    NaN, which no amount of the store reaches, are given the value 0. *)
Definition ofNumber (f : Number) : Q :=
  match f with
  | S754_finite s m e =>
      let z := if s then Zneg m else Zpos m in
      match e with
      | Zneg k => Qred (z # (2 ^ k)%positive)
      | _ => inject_Z (z * 2 ^ e)
      end
  | _ => 0%Q
  end.

(** [a + b], [a - b], [a * b], [a >= b] and [Math.abs(a - b) > 0.01]. *)
Definition Number_add (a b : Q) : Q :=
  ofNumber (SFadd prec emax (toNumber a) (toNumber b)).

Definition Number_sub (a b : Q) : Q :=
  ofNumber (SFsub prec emax (toNumber a) (toNumber b)).

Definition Number_mul (a b : Q) : Q :=
  ofNumber (SFmul prec emax (toNumber a) (toNumber b)).

Definition Number_geb (a b : Q) : bool := SFleb (toNumber b) (toNumber a).

Definition deviates (a b : Q) : bool :=
  SFltb (toNumber (1 # 100))
        (SFabs (SFsub prec emax (toNumber a) (toNumber b))).

(** JavaScript's [Math.round]: the nearest integer, ties towards plus
    infinity. *)
Definition Math_round (x : Q) : Z := Qfloor (x + (1 # 2))%Q.

(** [orderSchema.methods.calculateTotals] *)
Definition calculateTotals (o : Order) : Order :=
  let s := orderSummary o in
  let subtotal' :=
    fold_left (fun sum item => Number_add sum (oi_totalPrice item)) (items o) (0%Q) in
  let tax' := inject_Z (Math_round (Number_mul subtotal' (18 # 100))) in
  let shipping' := if Number_geb subtotal' 2000 then 0%Q else 200%Q in
  let total' :=
    Number_sub (Number_add (Number_add subtotal' tax') shipping') (discount s) in
  set_orderSummary (mkOrderSummary subtotal' tax' shipping' (discount s) total') o.

(** ** Products, carts and the document store *)

(** The fields of a product document that the order routes read or write
    (models/Product.js); [stock_quantity] and [stock_isInStock] are the
    [stock] sub-document. *)
Record Product := mkProduct {
  p_name : string;
  p_price : Q;
  p_isActive : bool;
  stock_quantity : Z;
  stock_isInStock : bool
}.

(** [productSchema.pre('save')]: the hook that refreshes the stock flag.
    It runs on [product.save()] only. *)
Definition Product_preSave (p : Product) : Product :=
  mkProduct (p_name p) (p_price p) (p_isActive p) (stock_quantity p)
            (0 <? stock_quantity p).

(** A cart line: a reference to a product, a quantity and the price
    captured when the line was added. *)
Record CartItem := mkCartItem {
  ci_product : ObjectId;
  ci_quantity : Z;
  ci_price : Q
}.

(** The collections: products by [_id], carts by owning user, orders in
    collection order. *)
Record Db := mkDb {
  products : gmap ObjectId Product;
  carts : gmap ObjectId (list CartItem);
  orders : list Order
}.

(** [Model.findOne(filter)]: the first document that matches. *)
Definition findOne (p : Order → bool) (l : list Order) : option Order :=
  find p l.

(** [doc.save()] on the document [findOne p] returned: it is written back
    in place. *)
Fixpoint saveFound (p : Order → bool) (o' : Order) (l : list Order) : list Order :=
  match l with
  | [] => []
  | x :: l' => if p x then o' :: l' else x :: saveFound p o' l'
  end.

Definition hasId (id : ObjectId) (o : Order) : bool := bool_decide (_id o = id).

(** [Product.findByIdAndUpdate(id, { $inc: { 'stock.quantity': delta } })]:
    an update operator applied by the store; no document middleware runs,
    and an unknown id updates nothing. *)
Definition incQuantity (delta : Z) (p : Product) : Product :=
  mkProduct (p_name p) (p_price p) (p_isActive p) (stock_quantity p + delta)
            (stock_isInStock p).

Definition findByIdAndUpdate_inc (id : ObjectId) (delta : Z)
    (ps : gmap ObjectId Product) : gmap ObjectId Product :=
  alter (incQuantity delta) id ps.

(** ** HTTP responses (utils/helpers.js) *)

Record Response := mkResponse {
  res_status : Z;
  res_success : bool;
  res_message : string;
  res_order : option Order
}.

Definition sendErrorResponse (statusCode : Z) (message : string) : Response :=
  mkResponse statusCode false message None.

Definition sendSuccessResponse (statusCode : Z) (message : string)
    (order : option Order) : Response :=
  mkResponse statusCode true message order.

(** A template literal prints an integer Number in decimal. *)
Definition string_of_Z (z : Z) : string := NilZero.string_of_int (Z.to_int z).

(** [s || d] on an optional string: [undefined] and the empty string are
    falsy. *)
Definition or_default (s : option string) (d : string) : string :=
  match s with
  | Some r => if bool_decide (r = "") then d else r
  | None => d
  end.

(** ** POST /api/orders *)

Record CreateOrderRequest := mkCreateOrderRequest {
  req_user : ObjectId;
  req_validationErrors : list string;
  req_paymentMethod : PaymentMethod
}.

(** Outcome of the [for (const cartItem of cart.items)] validation loop. *)
Inductive LoopResult :=
| LoopReturn (r : Response)
| LoopDone (allItemsValid : bool) (orderItems : list OrderItem).

Definition insufficientStockMessage (p : Product) : string :=
  "Insufficient stock for " +:+ p_name p +:+ ". Available: "
    +:+ string_of_Z (stock_quantity p).

(** The validation loop; [ps !! ci_product cartItem] is the product that
    [populate('items.product')] put on the line ([None]: the reference is
    dangling and the populated field is [null]). *)
Fixpoint validateCartItems (ps : gmap ObjectId Product)
    (cartItems : list CartItem) (orderItems : list OrderItem) : LoopResult :=
  match cartItems with
  | [] => LoopDone true orderItems
  | cartItem :: rest =>
      match ps !! ci_product cartItem with
      | None => LoopDone false orderItems
      | Some product =>
          if negb (p_isActive product) then LoopDone false orderItems
          else if negb (stock_isInStock product)
                  || (stock_quantity product <? ci_quantity cartItem)
          then LoopReturn (sendErrorResponse 400 (insufficientStockMessage product))
          else
            let orderItem :=
              mkOrderItem (ci_product cartItem) (p_name product)
                          (ci_quantity cartItem) (ci_price cartItem)
                          (Number_mul (ci_price cartItem)
                                      (inject_Z (ci_quantity cartItem))) in
            validateCartItems ps rest (orderItems ++ [orderItem])
      end
  end.

(** The summary computed by the handler. *)
Definition computeSummary (orderItems : list OrderItem) : OrderSummary :=
  let subtotal :=
    fold_left (fun sum item => Number_add sum (oi_totalPrice item)) orderItems (0%Q) in
  let tax := inject_Z (Math_round (Number_mul subtotal (18 # 100))) in
  let shipping := if Number_geb subtotal 2000 then 0%Q else 200%Q in
  let total := Number_add (Number_add subtotal tax) shipping in
  mkOrderSummary subtotal tax shipping 0 total.

(** The required paths of the order schema that a document handed to
    [Order.create] may lack: whether it carries an [orderNumber], a [user],
    the [subtotal] and [total] of an [orderSummary], and a
    [productSnapshot.name] and [totalPrice] on every item. *)
Record RequiredPaths := mkRequiredPaths {
  has_orderNumber : bool;
  has_user : bool;
  has_orderSummary : bool;
  has_itemSnapshots : bool
}.

Definition requiredPresent (given : RequiredPaths) : bool :=
  has_orderNumber given && has_user given && has_orderSummary given
  && has_itemSnapshots given.

(** The [orderData] of the placement handler: it has no [orderNumber]. The
    [pre('save')] hook of the schema that would make one up runs after
    validation. *)
Definition placementPaths : RequiredPaths := mkRequiredPaths false true true true.

(** The [min] validators of the order schema on the fields of the model. *)
Definition orderItemValid (i : OrderItem) : bool :=
  (1 <=? oi_quantity i) && Qle_bool 0 (oi_price i) && Qle_bool 0 (oi_totalPrice i).

Definition orderSummaryValid (s : OrderSummary) : bool :=
  Qle_bool 0 (subtotal s) && Qle_bool 0 (tax s) && Qle_bool 0 (shipping s)
  && Qle_bool 0 (discount s) && Qle_bool 0 (total s).

(** [Order.create(orderData)]: validates the document against the schema,
    fills in the defaults and gives it the fresh identifier [newId]. A
    document that lacks a required path is rejected. The [min] validators
    are computed; [pathsValid] is the verdict of the validators on the
    paths the model leaves out (addresses, notes). The handler discards the
    error of a rejected document. *)
Definition Order_create (given : RequiredPaths) (pathsValid : bool)
    (newId : ObjectId) (user : ObjectId)
    (items : list OrderItem) (summary : OrderSummary) (method : PaymentMethod)
    : Outcome Order :=
  if requiredPresent given && pathsValid && forallb orderItemValid items
     && orderSummaryValid summary then
    Resolved (mkOrder newId user items summary
                (mkPaymentDetails method None None pay_pending None 0 None)
                pending
                (mkTracking None None None None)
                []
                (mkCancellation None None None))
  else Thrown (mkError "Order validation failed").

(** The [for (const cartItem of cart.items)] loop that decrements stock. *)
Definition decrementStock (cartItems : list CartItem)
    (ps : gmap ObjectId Product) : gmap ObjectId Product :=
  fold_left (fun ps cartItem =>
               findByIdAndUpdate_inc (ci_product cartItem) (- ci_quantity cartItem) ps)
            cartItems ps.

(** The route handler. *)
Definition createOrder (now : Z) (newId : ObjectId) (pathsValid : bool)
    (req : CreateOrderRequest)
    (db : Db) : Response * Db :=
  if negb (bool_decide (req_validationErrors req = [])) then
    (sendErrorResponse 400 "Validation failed", db)
  else
    match carts db !! req_user req with
    | None => (sendErrorResponse 400 "Cart is empty", db)
    | Some [] => (sendErrorResponse 400 "Cart is empty", db)
    | Some cartItems =>
        match validateCartItems (products db) cartItems [] with
        | LoopReturn r => (r, db)
        | LoopDone false _ =>
            (sendErrorResponse 400 "Some products in cart are no longer available", db)
        | LoopDone true orderItems =>
            match Order_create placementPaths pathsValid newId (req_user req)
                    orderItems (computeSummary orderItems)
                    (req_paymentMethod req) with
            | Thrown _ => (sendErrorResponse 500 "Error creating order", db)
            | Resolved order0 =>
                let order :=
                  timeline_push
                    (mkTimelineEntry pending (Some "Order placed successfully")
                                     now (Some (req_user req))) order0 in
                let products' := decrementStock cartItems (products db) in
                let carts' := <[req_user req := []]> (carts db) in
                (sendSuccessResponse 201 "Order created successfully" (Some order),
                 mkDb products' carts' (orders db ++ [order]))
            end
        end
    end.

(** ** PUT /api/orders/:id/cancel *)

Definition cancellableStatuses : list OrderStatus := [pending; confirmed].

(** The [for (const item of order.items)] loop that restores stock. *)
Definition restoreStock (orderItems : list OrderItem)
    (ps : gmap ObjectId Product) : gmap ObjectId Product :=
  fold_left (fun ps item =>
               findByIdAndUpdate_inc (oi_product item) (oi_quantity item) ps)
            orderItems ps.

Definition cancelOrder (now : Z) (reqUser : ObjectId) (orderId : ObjectId)
    (reason : option string) (db : Db) : Response * Db :=
  match findOne (hasId orderId) (orders db) with
  | None => (sendErrorResponse 404 "Order not found", db)
  | Some order =>
      if negb (bool_decide (user order = reqUser)) then
        (sendErrorResponse 403 "Access denied", db)
      else if negb (includes cancellableStatuses (orderStatus order)) then
        (sendErrorResponse 400
           ("Cannot cancel order with status: " +:+ status_name (orderStatus order)),
         db)
      else
        let order1 := set_orderStatus cancelled order in
        let order2 :=
          set_cancellation
            (mkCancellation (Some (or_default reason "Cancelled by customer"))
                            (Some now) (Some reqUser)) order1 in
        let order3 :=
          timeline_push
            (mkTimelineEntry cancelled
               (Some (or_default reason "Order cancelled by customer"))
               now (Some reqUser)) order2 in
        let orders' := saveFound (hasId orderId) order3 (orders db) in
        let products' := restoreStock (items order) (products db) in
        (sendSuccessResponse 200 "Order cancelled successfully" (Some order3),
         mkDb products' (carts db) orders')
  end.

(** ** PUT /api/orders/:id/status (admin) *)

Record StatusUpdateRequest := mkStatusUpdateRequest {
  su_admin : ObjectId;
  su_validationErrors : list string;
  su_status : OrderStatus;
  su_message : option string;
  su_trackingNumber : option string;
  su_carrier : option string
}.

(** [if (x) order.tracking.f = x]: an absent or empty value is falsy. *)
Definition assign_if_truthy (x : option string) (old : option string) : option string :=
  match x with
  | Some r => if bool_decide (r = "") then old else Some r
  | None => old
  end.

(** The store once a save that a handler has left under way is over:
    [lands] tells whether its write has reached the store (nothing waits
    for it nor sees it fail). *)
Definition settle (underWay lands : bool) (orderId : ObjectId) (o : Order)
    (db : Db) : Db :=
  if underWay && lands then
    mkDb (products db) (carts db) (saveFound (hasId orderId) o (orders db))
  else db.

(** The handler. [await order.updateStatus(...)] throws what the method
    throws or what its promise is rejected with, and the inner [catch]
    answers with that message. [lands] is the fate of a save that the
    method may have left under way. *)
Definition updateOrderStatus (now : Z) (lands : bool) (orderId : ObjectId)
    (req : StatusUpdateRequest) (db : Db) : Response * Db :=
  if negb (bool_decide (su_validationErrors req = [])) then
    (sendErrorResponse 400 "Validation failed", db)
  else
    match findOne (hasId orderId) (orders db) with
    | None => (sendErrorResponse 404 "Order not found", db)
    | Some order =>
        let call :=
          updateStatus now (su_status req) (su_message req)
            (Some (su_admin req)) order in
        let order1 := sc_document call in
        match sc_outcome call with
        | Thrown statusError =>
            (sendErrorResponse 400 (err_message statusError),
             settle (sc_saveUnderWay call) lands orderId order1 db)
        | Resolved _ =>
            let order2 :=
              if bool_decide (su_status req = shipped) then
                let t := tracking order1 in
                set_tracking
                  (mkTracking (assign_if_truthy (su_carrier req) (tr_carrier t))
                     (assign_if_truthy (su_trackingNumber req) (tr_trackingNumber t))
                     (tr_shippedAt t) (tr_deliveredAt t)) order1
              else order1 in
            (sendSuccessResponse 200 "Order status updated successfully" (Some order2),
             mkDb (products db) (carts db)
                  (saveFound (hasId orderId) order2 (orders db)))
        end
    end.

(** ** Payment routes and webhook handlers (routes/payment.js) *)

Definition hasIntent (intentId : string) (o : Order) : bool :=
  bool_decide (pd_paymentIntentId (paymentDetails o) = Some intentId).

Definition set_pd_status (s : PaymentStatus) (pd : PaymentDetails) : PaymentDetails :=
  mkPaymentDetails (pd_method pd) (pd_transactionId pd) (pd_paymentIntentId pd)
                   s (pd_paidAt pd) (pd_refundAmount pd) (pd_refundReason pd).

(** The three assignments to [order.paymentDetails] on a succeeded payment. *)
Definition markPaid (now : Z) (intentId : string) (pd : PaymentDetails)
    : PaymentDetails :=
  mkPaymentDetails (pd_method pd) (Some intentId) (pd_paymentIntentId pd)
                   pay_completed (Some now) (pd_refundAmount pd) (pd_refundReason pd).

(** What [handlePaymentSuccess] does to an order that is not yet marked
    completed: the body of its [if]. *)
Definition applyPaymentSuccess (now : Z) (intentId : string) (order : Order) : Order :=
  let order1 :=
    set_paymentDetails (markPaid now intentId (paymentDetails order)) order in
  if bool_decide (orderStatus order1 = pending) then
    timeline_push
      (mkTimelineEntry confirmed (Some "Payment completed via webhook") now None)
      (set_orderStatus confirmed order1)
  else order1.

(** [handlePaymentSuccess(paymentIntent)] with [intentId = paymentIntent.id]. *)
Definition handlePaymentSuccess (now : Z) (intentId : string) (db : Db) : Db :=
  match findOne (hasIntent intentId) (orders db) with
  | Some order =>
      if negb (bool_decide (pd_status (paymentDetails order) = pay_completed)) then
        mkDb (products db) (carts db)
             (saveFound (hasIntent intentId)
                        (applyPaymentSuccess now intentId order) (orders db))
      else db
  | None => db
  end.

(** What [handlePaymentFailed] and [handlePaymentCanceled] do to the order
    they found; they differ in the timeline message. *)
Definition applyPaymentFailure (now : Z) (message : string) (order : Order) : Order :=
  let order1 :=
    set_paymentDetails (set_pd_status pay_failed (paymentDetails order)) order in
  timeline_push
    (mkTimelineEntry (orderStatus order1) (Some message) now None) order1.

Definition handlePaymentFailure (message : string) (now : Z) (intentId : string)
    (db : Db) : Db :=
  match findOne (hasIntent intentId) (orders db) with
  | Some order =>
      mkDb (products db) (carts db)
           (saveFound (hasIntent intentId)
                      (applyPaymentFailure now message order) (orders db))
  | None => db
  end.

Definition handlePaymentFailed : Z → string → Db → Db :=
  handlePaymentFailure "Payment failed".

Definition handlePaymentCanceled : Z → string → Db → Db :=
  handlePaymentFailure "Payment canceled".

(** Status of a payment intent as the provider reports it. *)
Inductive IntentStatus :=
| succeeded | requires_action | requires_payment_method | requires_confirmation
| other_intent_status.

(** Result of a call to the provider that may throw: the value, a thrown
    error of the type the handler answers with the provider's message
    ([StripeCardError] for intents, [StripeInvalidRequestError] for
    refunds), or another thrown error. *)
Inductive ProviderResult (A : Type) :=
| ProviderOk (a : A)
| ProviderRejected (message : string)
| ProviderFailed.
Arguments ProviderOk {A} a.
Arguments ProviderRejected {A} message.
Arguments ProviderFailed {A}.

Definition set_pd_paymentIntentId (id : string) (pd : PaymentDetails) : PaymentDetails :=
  mkPaymentDetails (pd_method pd) (pd_transactionId pd) (Some id)
                   (pd_status pd) (pd_paidAt pd) (pd_refundAmount pd)
                   (pd_refundReason pd).

(** POST /api/payment/create-intent. [existingIntent] is what retrieving
    the order's stored intent gives ([None]: the call threw, which the
    handler logs), [created] what creating a new intent gives. *)
Definition createPaymentIntent (reqUser orderId : ObjectId)
    (validationErrors : list string) (existingIntent : option IntentStatus)
    (created : ProviderResult string) (db : Db) : Response * Db :=
  if negb (bool_decide (validationErrors = [])) then
    (sendErrorResponse 400 "Validation failed", db)
  else
    match findOne (hasId orderId) (orders db) with
    | None => (sendErrorResponse 404 "Order not found", db)
    | Some order =>
        if negb (bool_decide (user order = reqUser)) then
          (sendErrorResponse 403 "Access denied", db)
        else if negb (bool_decide (orderStatus order = pending)) then
          (sendErrorResponse 400 "Order is not in a payable state", db)
        else
          let createNew :=
            match created with
            | ProviderOk intentId =>
                let order1 :=
                  set_paymentDetails
                    (set_pd_paymentIntentId intentId (paymentDetails order)) order in
                (sendSuccessResponse 200 "Payment intent created successfully" None,
                 mkDb (products db) (carts db)
                      (saveFound (hasId orderId) order1 (orders db)))
            | ProviderRejected message => (sendErrorResponse 400 message, db)
            | ProviderFailed =>
                (sendErrorResponse 500 "Error creating payment intent", db)
            end in
          match pd_paymentIntentId (paymentDetails order) with
          | Some stored =>
              if bool_decide (stored = "") then createNew
              else
                match existingIntent with
                | Some succeeded =>
                    (sendErrorResponse 400 "Payment already completed", db)
                | Some requires_payment_method
                | Some requires_confirmation
                | Some requires_action =>
                    (sendSuccessResponse 200 "Payment intent retrieved" None, db)
                | Some other_intent_status | None => createNew
                end
          | None => createNew
          end
    end.

(** POST /api/payment/confirm, given the intent status the provider
    returned for [intentId]. *)
Definition confirmPayment (now : Z) (reqUser : ObjectId) (intentId : string)
    (intentStatus : IntentStatus) (db : Db) : Response * Db :=
  let mine o := hasIntent intentId o && bool_decide (user o = reqUser) in
  match findOne mine (orders db) with
  | None => (sendErrorResponse 404 "Order not found", db)
  | Some order =>
      match intentStatus with
      | succeeded =>
          let order1 :=
            set_paymentDetails (markPaid now intentId (paymentDetails order)) order in
          let order2 := set_orderStatus confirmed order1 in
          let order3 :=
            timeline_push
              (mkTimelineEntry confirmed (Some "Payment completed successfully")
                               now (Some reqUser)) order2 in
          (sendSuccessResponse 200 "Payment confirmed successfully" (Some order3),
           mkDb (products db) (carts db) (saveFound mine order3 (orders db)))
      | requires_action =>
          (sendSuccessResponse 200 "Payment requires additional action" None, db)
      | _ =>
          let order1 :=
            set_paymentDetails (set_pd_status pay_failed (paymentDetails order)) order in
          (sendErrorResponse 400 "Payment failed or incomplete",
           mkDb (products db) (carts db) (saveFound mine order1 (orders db)))
      end
  end.

(** POST /api/payment/refund *)

Record RefundRequest := mkRefundRequest {
  rf_user : ObjectId;
  rf_isAdmin : bool;
  rf_validationErrors : list string;
  rf_orderId : ObjectId;
  rf_amount : option Q;
  rf_reason : option string
}.

(** [amount || order.orderSummary.total]: an absent or zero amount is
    falsy. *)
Definition refundAmountOf (amount : option Q) (order : Order) : Q :=
  match amount with
  | Some a => if Qeq_bool a 0 then total (orderSummary order) else a
  | None => total (orderSummary order)
  end.

(** The handler. [shownAmount] is the text that the template literal
    prints for the refunded amount, [refund] the result of the provider's
    refund call. *)
Definition processRefund (now : Z) (shownAmount : string)
    (refund : ProviderResult unit) (req : RefundRequest) (db : Db)
    : Response * Db :=
  if negb (bool_decide (rf_validationErrors req = [])) then
    (sendErrorResponse 400 "Validation failed", db)
  else
    match findOne (hasId (rf_orderId req)) (orders db) with
    | None => (sendErrorResponse 404 "Order not found", db)
    | Some order =>
        let pd := paymentDetails order in
        if negb (rf_isAdmin req) && negb (bool_decide (user order = rf_user req)) then
          (sendErrorResponse 403 "Access denied", db)
        else if negb (bool_decide (pd_status pd = pay_completed)) then
          (sendErrorResponse 400 "Cannot refund unpaid order", db)
        else if bool_decide (pd_method pd = cod) then
          (sendErrorResponse 400
             "Cash on delivery orders cannot be refunded through this system", db)
        else
          let refundAmount := refundAmountOf (rf_amount req) order in
          match refund with
          | ProviderRejected message => (sendErrorResponse 400 message, db)
          | ProviderFailed => (sendErrorResponse 500 "Error processing refund", db)
          | ProviderOk _ =>
              let reason := or_default (rf_reason req) "Customer request" in
              let pd' :=
                mkPaymentDetails (pd_method pd) (pd_transactionId pd)
                  (pd_paymentIntentId pd)
                  (if Number_geb refundAmount (total (orderSummary order))
                   then pay_refunded else pay_partially_refunded)
                  (pd_paidAt pd) (Number_add (pd_refundAmount pd) refundAmount)
                  (Some reason) in
              let order1 := set_paymentDetails pd' order in
              let order2 :=
                timeline_push
                  (mkTimelineEntry (orderStatus order1)
                     (Some ("Refund of ₹" +:+ shownAmount +:+ " processed. Reason: "
                            +:+ reason))
                     now (Some (rf_user req))) order1 in
              (sendSuccessResponse 200 "Refund processed successfully" (Some order2),
               mkDb (products db) (carts db)
                    (saveFound (hasId (rf_orderId req)) order2 (orders db)))
          end
    end.

(** ** POST /api/orders/quick-buy *)

Inductive QuickBuyPayment := qb_cod | qb_online.

(** The fields of the request that the handler reads; [qb_productId] is
    the id that [findById] casts [product.id] to. *)
Record QuickBuyRequest := mkQuickBuyRequest {
  qb_validationErrors : list string;
  qb_productId : ObjectId;
  qb_quantity : Z;
  qb_paymentMethod : QuickBuyPayment;
  qb_subtotal : Q;
  qb_shipping : Q;
  qb_total : Q
}.

(** The pricing fields of the [orderData] object the handler passes to
    [Order.create]. *)
Record QuickBuyOrderData := mkQuickBuyOrderData {
  qbo_product : ObjectId;
  qbo_name : string;
  qbo_price : Q;
  qbo_quantity : Z;
  qbo_method : PaymentMethod;
  qbo_itemsTotal : Q;
  qbo_shippingCost : Q;
  qbo_totalAmount : Q
}.

Definition expectedSubtotal (productData : Product) (quantity : Z) : Q :=
  Number_mul (p_price productData) (inject_Z quantity).

Definition expectedShipping (productData : Product) (quantity : Z) : Q :=
  if Number_geb (expectedSubtotal productData quantity) 5000 then 0%Q else 199%Q.

Definition expectedTotal (productData : Product) (quantity : Z) : Q :=
  Number_add (expectedSubtotal productData quantity)
             (expectedShipping productData quantity).

(** The condition of the pricing check: [true] when the request is to be
    rejected. *)
Definition pricingMismatch (req : QuickBuyRequest) (productData : Product) : bool :=
  deviates (qb_subtotal req) (expectedSubtotal productData (qb_quantity req))
  || deviates (qb_shipping req) (expectedShipping productData (qb_quantity req))
  || deviates (qb_total req) (expectedTotal productData (qb_quantity req)).

(** The update document of the handler's [findByIdAndUpdate]: the
    decrement together with a fresh value for the stock flag. *)
Definition quickBuyStockUpdate (productData : Product) (quantity : Z)
    (p : Product) : Product :=
  mkProduct (p_name p) (p_price p) (p_isActive p) (stock_quantity p - quantity)
            (0 <? stock_quantity productData - quantity).

(** The [orderData] of the quick-buy handler: it has an [orderNumber], but
    no [user], no [orderSummary], and its item has [name] and [total] where
    the schema requires [productSnapshot.name] and [totalPrice]. *)
Definition quickBuyPaths : RequiredPaths := mkRequiredPaths true false false false.

(** The handler: the response, the products collection afterwards and the
    order document that was created (if any). [Order.create] rejects a
    document that lacks a required path, and a rejection ends in the
    handler's [catch]. *)
Definition quickBuy (req : QuickBuyRequest)
    (ps : gmap ObjectId Product)
    : Response * gmap ObjectId Product * option QuickBuyOrderData :=
  if negb (bool_decide (qb_validationErrors req = [])) then
    (sendErrorResponse 400 "Validation failed", ps, None)
  else
    match ps !! qb_productId req with
    | None => (sendErrorResponse 404 "Product not found", ps, None)
    | Some productData =>
        let quantity := qb_quantity req in
        if negb (stock_isInStock productData)
           || (stock_quantity productData <? quantity) then
          (sendErrorResponse 400 "Product is out of stock or insufficient quantity",
           ps, None)
        else if pricingMismatch req productData then
          (sendErrorResponse 400 "Invalid pricing calculation", ps, None)
        else
          let orderData :=
            mkQuickBuyOrderData (qb_productId req) (p_name productData)
              (p_price productData) quantity
              (match qb_paymentMethod req with qb_online => stripe | qb_cod => cod end)
              (expectedSubtotal productData quantity)
              (expectedShipping productData quantity)
              (expectedTotal productData quantity) in
          if requiredPresent quickBuyPaths then
            (sendSuccessResponse 201 "Quick buy order placed successfully" None,
             alter (quickBuyStockUpdate productData quantity) (qb_productId req) ps,
             Some orderData)
          else
            (sendErrorResponse 500 "Error placing quick buy order", ps, None)
    end.

(** ** Operations on the store *)

(** The requests and provider notifications that write order documents. *)
Inductive Op :=
| OpCreateOrder (now : Z) (newId : ObjectId) (pathsValid : bool)
                (req : CreateOrderRequest)
| OpCancelOrder (now : Z) (reqUser orderId : ObjectId) (reason : option string)
| OpUpdateOrderStatus (now : Z) (lands : bool) (orderId : ObjectId)
                      (req : StatusUpdateRequest)
| OpConfirmPayment (now : Z) (reqUser : ObjectId) (intentId : string)
                   (intentStatus : IntentStatus)
| OpPaymentSucceeded (now : Z) (intentId : string)
| OpPaymentFailed (now : Z) (intentId : string)
| OpPaymentCanceled (now : Z) (intentId : string)
| OpCreatePaymentIntent (reqUser orderId : ObjectId)
                        (validationErrors : list string)
                        (existingIntent : option IntentStatus)
                        (created : ProviderResult string)
| OpProcessRefund (now : Z) (shownAmount : string)
                  (refund : ProviderResult unit) (req : RefundRequest).

(** The store after an operation. *)
Definition step (db : Db) (op : Op) : Db :=
  match op with
  | OpCreateOrder now newId pathsValid req =>
      snd (createOrder now newId pathsValid req db)
  | OpCancelOrder now reqUser orderId reason =>
      snd (cancelOrder now reqUser orderId reason db)
  | OpUpdateOrderStatus now lands orderId req =>
      snd (updateOrderStatus now lands orderId req db)
  | OpConfirmPayment now reqUser intentId intentStatus =>
      snd (confirmPayment now reqUser intentId intentStatus db)
  | OpPaymentSucceeded now intentId => handlePaymentSuccess now intentId db
  | OpPaymentFailed now intentId => handlePaymentFailed now intentId db
  | OpPaymentCanceled now intentId => handlePaymentCanceled now intentId db
  | OpCreatePaymentIntent reqUser orderId validationErrors existingIntent created =>
      snd (createPaymentIntent reqUser orderId validationErrors existingIntent
             created db)
  | OpProcessRefund now shownAmount refund req =>
      snd (processRefund now shownAmount refund req db)
  end.

(** The store after a sequence of operations. *)
Definition run (db : Db) (ops : list Op) : Db := fold_left step ops db.

(** Whether the operation is a cancellation request. *)
Definition isCancel (op : Op) : bool :=
  match op with
  | OpCancelOrder _ _ _ _ => true
  | _ => false
  end.

(** ** Predicates used by the properties *)

(** The transition table of the specification (section 4.1). *)
Inductive Transition : OrderStatus → OrderStatus → Prop :=
| T_pending_confirmed : Transition pending confirmed
| T_pending_cancelled : Transition pending cancelled
| T_confirmed_processing : Transition confirmed processing
| T_confirmed_cancelled : Transition confirmed cancelled
| T_processing_shipped : Transition processing shipped
| T_processing_cancelled : Transition processing cancelled
| T_shipped_out_for_delivery : Transition shipped out_for_delivery
| T_shipped_delivered : Transition shipped delivered
| T_out_for_delivery_delivered : Transition out_for_delivery delivered
| T_delivered_returned : Transition delivered returned.

(** Every product's stock quantity is at least zero. *)
Definition stock_nonneg (ps : gmap ObjectId Product) : Prop :=
  ∀ id p, ps !! id = Some p → 0 ≤ stock_quantity p.

(** Every stored order meets the schema's minimum quantity on its items. *)
Definition orders_valid (os : list Order) : Prop :=
  Forall (fun o => Forall (fun i => 1 ≤ oi_quantity i) (items o)) os.

(** The stock test of the validation loop on one cart line. *)
Definition stockCheckFails (product : Product) (cartItem : CartItem) : bool :=
  negb (stock_isInStock product)
  || (stock_quantity product <? ci_quantity cartItem).

(** The order line that the validation loop builds from a cart line. *)
Definition orderItemOf (ps : gmap ObjectId Product) (cartItem : CartItem) : OrderItem :=
  mkOrderItem (ci_product cartItem)
    (from_option p_name "" (ps !! ci_product cartItem))
    (ci_quantity cartItem) (ci_price cartItem)
    (Number_mul (ci_price cartItem) (inject_Z (ci_quantity cartItem))).

(** Total quantity that the lines of an order hold of product [id]. *)
Definition orderedQuantity (id : ObjectId) (orderItems : list OrderItem) : Z :=
  foldr (fun item acc => if bool_decide (oi_product item = id)
                         then oi_quantity item + acc else acc) 0 orderItems.


(** A cart line passes the validation loop: its product exists, is
    active and passes the stock test. *)
Definition linePasses (ps : gmap ObjectId Product) (cartItem : CartItem) : bool :=
  match ps !! ci_product cartItem with
  | Some product => p_isActive product && negb (stockCheckFails product cartItem)
  | None => false
  end.

(** The invariant of the store: no negative stock, stored orders with
    quantities of at least one. *)
Definition store_inv (db : Db) : Prop :=
  stock_nonneg (products db) ∧ orders_valid (orders db).

(** The status of the last timeline entry of an order. *)
Definition lastStatus (o : Order) : option OrderStatus :=
  tl_status <$> last (timeline o).

(** How an operation may change an order: the old timeline is a prefix of
    the new one, and if the status changed then the last timeline entry
    carries the new status. *)
Definition evolves (o o' : Order) : Prop :=
  timeline o `prefix_of` timeline o'
  ∧ (orderStatus o' ≠ orderStatus o → lastStatus o' = Some (orderStatus o')).

(** ** Sample data for the examples *)

(** An order of user 7 for two units of product 1, in a given status. *)
Definition sampleOrder (st : OrderStatus) : Order :=
  mkOrder 9%N 7%N [mkOrderItem 1%N "Ganesh Idol" 2 1000 2000]
          (mkOrderSummary 2000 360 0 0 2360)
          (mkPaymentDetails stripe None (Some "pi_1") pay_pending None 0 None)
          st (mkTracking None None None None)
          [mkTimelineEntry pending (Some "Order placed successfully") 0 (Some 7%N)]
          (mkCancellation None None None).

(** A store with product 1 (three units left) and an order in a given
    status. *)
Definition sampleDb (st : OrderStatus) : Db :=
  mkDb {[ 1%N := mkProduct "Ganesh Idol" 1000 true 3 true ]} ∅ [sampleOrder st].

(** A store with three units of product 1 and the cart of user 7 holding
    the given lines. *)
Definition shopDb (cartItems : list CartItem) : Db :=
  mkDb {[ 1%N := mkProduct "Ganesh Idol" 1000 true 3 true ]}
       {[ 7%N := cartItems ]} [].

(** ** Scaffolding for the further properties *)

(** How far along the lifecycle a status is: the two final statuses come
    last. *)
Definition statusRank (s : OrderStatus) : nat :=
  match s with
  | pending => 0
  | confirmed => 1
  | processing => 2
  | shipped => 3
  | out_for_delivery => 4
  | delivered => 5
  | cancelled => 6
  | returned => 6
  end.

(** [updateStatus] called on a document once per entry of [calls] (clock
    reading, target status, message, actor): the document as the calls
    leave it, whatever they throw. *)
Fixpoint updateStatuses
    (calls : list (Z * OrderStatus * option string * option ObjectId))
    (o : Order) : Order :=
  match calls with
  | [] => o
  | (now, newStatus, message, updatedBy) :: rest =>
      updateStatuses rest
        (sc_document (updateStatus now newStatus message updatedBy o))
  end.

(** The calls of [calls] that the transition table lets through. *)
Fixpoint accepted
    (calls : list (Z * OrderStatus * option string * option ObjectId))
    (o : Order) : nat :=
  match calls with
  | [] => 0
  | (now, newStatus, message, updatedBy) :: rest =>
      ((if includes (statusTransitions (orderStatus o)) newStatus then 1 else 0)
       + accepted rest
           (sc_document (updateStatus now newStatus message updatedBy o)))%nat
  end.

(** The filter of the confirm route's [findOne]: the intent id and the
    requesting user. *)
Definition intentOfUser (intentId : string) (reqUser : ObjectId) (o : Order) : bool :=
  hasIntent intentId o && bool_decide (user o = reqUser).

(** ** Pagination helper (utils/helpers.js) *)

(** [x || d] on what [parseInt] returned ([None]: NaN): NaN and 0 are
    falsy. *)
Definition number_or (x : option Z) (d : Z) : Z :=
  match x with
  | Some 0 => d
  | Some z => z
  | None => d
  end.

(** JavaScript's [Math.ceil]. *)
Definition Math_ceil (x : Q) : Z := Qceiling x.

Record Pagination := mkPagination {
  currentPage : Z;
  itemsPerPage : Z;
  totalPages : Z;
  totalItems : Z;
  skip : Z;
  hasNextPage : bool;
  hasPrevPage : bool;
  nextPage : option Z;
  prevPage : option Z
}.

(** [getPaginationData(page, limit, total)]; [page] and [limit] are the
    results of [parseInt(page)] and [parseInt(limit)]. *)
Definition getPaginationData (page limit : option Z) (total : Z) : Pagination :=
  let currentPage := number_or page 1 in
  let itemsPerPage := number_or limit 10 in
  let totalPages := Math_ceil (inject_Z total / inject_Z itemsPerPage) in
  let skip := (currentPage - 1) * itemsPerPage in
  mkPagination currentPage itemsPerPage totalPages total skip
    (currentPage <? totalPages)
    (1 <? currentPage)
    (if currentPage <? totalPages then Some (currentPage + 1) else None)
    (if 1 <? currentPage then Some (currentPage - 1) else None).

(** ** The product document beyond its stock (models/Product.js) *)

Record Review := mkReview {
  rv_user : ObjectId;
  rv_rating : Z;
  rv_comment : string;
  rv_createdAt : Z
}.

(** A product document as the catalogue, review and cart routes use it:
    the fields of [Product] together with the pricing, threshold and
    review fields. *)
Record ProductDoc := mkProductDoc {
  doc_core : Product;
  doc_discount : Q;
  doc_originalPrice : option Q;
  doc_lowStockThreshold : Z;
  doc_reviews : list Review;
  rating_average : Q;
  rating_count : Z
}.

Definition set_doc_core (p : Product) (d : ProductDoc) : ProductDoc :=
  mkProductDoc p (doc_discount d) (doc_originalPrice d) (doc_lowStockThreshold d)
               (doc_reviews d) (rating_average d) (rating_count d).

(** Virtual [discountedPrice]. *)
Definition discountedPrice (d : ProductDoc) : Q :=
  if Qlt_le_dec 0 (doc_discount d) then
    (p_price (doc_core d) * (1 - doc_discount d / 100))%Q
  else p_price (doc_core d).


(** Virtual [isLowStock]. *)
Definition isLowStock (d : ProductDoc) : bool :=
  stock_quantity (doc_core d) <=? doc_lowStockThreshold d.

(** [productSchema.methods.updateRating] *)
Definition updateRating (d : ProductDoc) : ProductDoc :=
  match doc_reviews d with
  | [] =>
      mkProductDoc (doc_core d) (doc_discount d) (doc_originalPrice d)
                   (doc_lowStockThreshold d) (doc_reviews d) 0 0
  | _ =>
      let totalRating :=
        fold_left (fun sum review => sum + rv_rating review) (doc_reviews d) 0 in
      let n := Z.of_nat (length (doc_reviews d)) in
      mkProductDoc (doc_core d) (doc_discount d) (doc_originalPrice d)
                   (doc_lowStockThreshold d) (doc_reviews d)
                   (inject_Z (Math_round (inject_Z totalRating / inject_Z n * 10))
                    / 10)%Q
                   n
  end.

(** [product.save()]: the [pre('save')] hook runs on the stock
    sub-document. *)
Definition ProductDoc_save (d : ProductDoc) : ProductDoc :=
  set_doc_core (Product_preSave (doc_core d)) d.

(** ** POST /api/products/:id/reviews *)

(** The validators of the route on the rating, a JSON number, and on the
    comment, if there is one. *)
Definition reviewErrors (rating : Z) (comment : option string) : list string :=
  (if (1 <=? rating) && (rating <=? 5) then []
   else ["Rating must be between 1 and 5"])
  ++ match comment with
     | Some text =>
         if (String.length text <=? 500)%nat then []
         else ["Comment cannot exceed 500 characters"]
     | None => []
     end.

(** The handler, given what [Product.findById] returned: the answer and
    the document as stored afterwards. [comment] is the comment as the
    route's [trim()] leaves it ([None]: the request has none). *)
Definition addReview (now : Z) (reqUser : ObjectId) (rating : Z)
    (comment : option string) (product : option ProductDoc)
    : Response * option ProductDoc :=
  if negb (bool_decide (reviewErrors rating comment = [])) then
    (sendErrorResponse 400 "Validation failed", product)
  else
    match product with
    | None => (sendErrorResponse 404 "Product not found", product)
    | Some d =>
        if negb (p_isActive (doc_core d)) then
          (sendErrorResponse 400 "Cannot review inactive product", product)
        else
          match find (fun review => bool_decide (rv_user review = reqUser))
                     (doc_reviews d) with
          | Some _ =>
              (sendErrorResponse 400 "You have already reviewed this product",
               product)
          | None =>
              let review := mkReview reqUser rating (or_default comment "") now in
              let d1 :=
                mkProductDoc (doc_core d) (doc_discount d) (doc_originalPrice d)
                  (doc_lowStockThreshold d) (doc_reviews d ++ [review])
                  (rating_average d) (rating_count d) in
              (sendSuccessResponse 201 "Review added successfully" None,
               Some (ProductDoc_save (updateRating d1)))
          end
    end.

(** ** DELETE /api/products/:id *)

Definition set_isActive (b : bool) (p : Product) : Product :=
  mkProduct (p_name p) (p_price p) b (stock_quantity p) (stock_isInStock p).

(** The soft delete: the product is marked inactive and saved. *)
Definition deleteProduct (id : ObjectId) (db : Db) : Response * Db :=
  match products db !! id with
  | None => (sendErrorResponse 404 "Product not found", db)
  | Some product =>
      (sendSuccessResponse 200 "Product deleted successfully" None,
       mkDb (<[id := Product_preSave (set_isActive false product)]> (products db))
            (carts db) (orders db))
  end.

(** [product.discountedPrice || product.price], the price a cart line is
    given: a Number is falsy when it is 0. *)
Definition currentPrice (d : ProductDoc) : Q :=
  if Qeq_bool (discountedPrice d) 0 then p_price (doc_core d)
  else discountedPrice d.

(** ** Cart routes (routes/cart.js) *)

(** The handlers below work on the lines of the requesting user's cart.
    [docs] is the product collection; [productId] is a well-formed id and
    [quantity] a JSON number. [cart.save()] stores the lines as the handler
    leaves them. *)

(** A well-formed id as a request spells it: the id it denotes, and whether
    the request spells it as [toString] prints it, with every hexadecimal
    digit in lower case. The validator and the cast of [findById] take
    either case. *)
Record IdText := mkIdText {
  id_value : ObjectId;
  id_lowerCase : bool
}.

(** [stored.toString() === productId]: the text of a stored id is in lower
    case. *)
Definition sameText (stored : ObjectId) (productId : IdText) : bool :=
  bool_decide (stored = id_value productId) && id_lowerCase productId.

(** The validator of the routes on the quantity. *)
Definition quantityErrors (quantity : Z) : list string :=
  if (1 <=? quantity) && (quantity <=? 10) then []
  else ["Quantity must be between 1 and 10"].

Definition onlyAvailableMessage (p : Product) : string :=
  "Only " +:+ string_of_Z (stock_quantity p) +:+ " items available in stock".

(** [cart.items.findIndex(item => item.product._id.toString() === productId)].
    On populated lines ([populated = true]) a line whose product is no
    longer stored holds [null], and reading its [_id] throws. *)
Fixpoint findIndex_product (populated : bool) (docs : gmap ObjectId ProductDoc)
    (productId : IdText) (cartItems : list CartItem) : Outcome (option nat) :=
  match cartItems with
  | [] => Resolved None
  | item :: rest =>
      if populated && bool_decide (docs !! ci_product item = None) then
        Thrown (mkError "Cannot read properties of null")
      else if sameText (ci_product item) productId then Resolved (Some 0%nat)
      else
        match findIndex_product populated docs productId rest with
        | Resolved (Some i) => Resolved (Some (S i))
        | r => r
        end
  end.

Definition set_ci_quantity (q : Z) (item : CartItem) : CartItem :=
  mkCartItem (ci_product item) q (ci_price item).

(** POST /api/cart/items. [cart] holds the lines of the cart that
    [Cart.getOrCreateCart] hands back, [populated] tells whether it hands
    them back populated. The result is the answer and the lines of the cart
    afterwards. *)
Definition addItem (populated : bool) (docs : gmap ObjectId ProductDoc)
    (productId : IdText) (quantity : Z) (cart : list CartItem)
    : Response * list CartItem :=
  if negb (bool_decide (quantityErrors quantity = [])) then
    (sendErrorResponse 400 "Validation failed", cart)
  else
    match docs !! id_value productId with
    | None => (sendErrorResponse 404 "Product not found", cart)
    | Some d =>
        let product := doc_core d in
        if negb (p_isActive product) then
          (sendErrorResponse 404 "Product not found", cart)
        else if negb (stock_isInStock product) || (stock_quantity product <? quantity)
        then (sendErrorResponse 400 "Insufficient stock available", cart)
        else
          match findIndex_product populated docs productId cart with
          | Thrown _ => (sendErrorResponse 500 "Error adding item to cart", cart)
          | Resolved (Some existingItemIndex) =>
              match cart !! existingItemIndex with
              | None => (sendErrorResponse 500 "Error adding item to cart", cart)
              | Some existing =>
                  let newQuantity := ci_quantity existing + quantity in
                  if stock_quantity product <? newQuantity then
                    (sendErrorResponse 400 (onlyAvailableMessage product), cart)
                  else if 10 <? newQuantity then
                    (sendErrorResponse 400 "Maximum 10 items allowed per product",
                     cart)
                  else
                    (sendSuccessResponse 200 "Item added to cart successfully" None,
                     <[existingItemIndex := set_ci_quantity newQuantity existing]>
                       cart)
              end
          | Resolved None =>
              (sendSuccessResponse 200 "Item added to cart successfully" None,
               cart ++ [mkCartItem (id_value productId) quantity (currentPrice d)])
          end
    end.

(** PUT /api/cart/items/:productId, given what [Cart.findOne] returned
    (populated). *)
Definition updateItem (docs : gmap ObjectId ProductDoc)
    (productId : IdText) (quantity : Z) (cart : option (list CartItem))
    : Response * option (list CartItem) :=
  if negb (bool_decide (quantityErrors quantity = [])) then
    (sendErrorResponse 400 "Validation failed", cart)
  else
    match docs !! id_value productId with
    | None => (sendErrorResponse 404 "Product not found", cart)
    | Some d =>
        let product := doc_core d in
        if negb (p_isActive product) then
          (sendErrorResponse 404 "Product not found", cart)
        else if negb (stock_isInStock product) || (stock_quantity product <? quantity)
        then (sendErrorResponse 400 (onlyAvailableMessage product), cart)
        else
          match cart with
          | None => (sendErrorResponse 404 "Cart not found", cart)
          | Some cartItems =>
              match findIndex_product true docs productId cartItems with
              | Thrown _ => (sendErrorResponse 500 "Error updating cart item", cart)
              | Resolved None =>
                  (sendErrorResponse 404 "Item not found in cart", cart)
              | Resolved (Some itemIndex) =>
                  match cartItems !! itemIndex with
                  | None =>
                      (sendErrorResponse 500 "Error updating cart item", cart)
                  | Some item =>
                      (sendSuccessResponse 200 "Cart item updated successfully" None,
                       Some (<[itemIndex := set_ci_quantity quantity item]> cartItems))
                  end
              end
          end
    end.

(** DELETE /api/cart/items/:productId *)
Definition removeItem (productId : IdText) (cart : option (list CartItem))
    : Response * option (list CartItem) :=
  match cart with
  | None => (sendErrorResponse 404 "Cart not found", cart)
  | Some cartItems =>
      let kept :=
        filter (fun item => negb (sameText (ci_product item) productId))
               cartItems in
      if bool_decide (length kept = length cartItems) then
        (sendErrorResponse 404 "Item not found in cart", cart)
      else
        (sendSuccessResponse 200 "Item removed from cart successfully" None,
         Some kept)
  end.

(** DELETE /api/cart *)
Definition clearCart (cart : option (list CartItem))
    : Response * option (list CartItem) :=
  match cart with
  | None => (sendErrorResponse 404 "Cart not found", cart)
  | Some _ => (sendSuccessResponse 200 "Cart cleared successfully" None, Some [])
  end.

(** ** POST /api/cart/validate *)

(** The issues the route reports, by their [type]; the [message] of an
    issue repeats its other fields. A [productId] of [None] stands for
    ['unknown']. *)
Inductive Issue :=
| unavailable (productId : option ObjectId) (productName : string)
| out_of_stock (productId : ObjectId) (productName : string)
| insufficient_stock (productId : ObjectId) (productName : string)
    (requestedQuantity availableQuantity : Z)
| price_change (productId : ObjectId) (productName : string)
    (oldPrice newPrice : Q).

(** [['unavailable', 'out_of_stock'].includes(issue.type)] *)
Definition removesLine (issue : Issue) : bool :=
  match issue with
  | unavailable _ _ | out_of_stock _ _ => true
  | _ => false
  end.

(** [name || 'Unknown Product'] *)
Definition name_or_unknown (name : string) : string :=
  if String.eqb name "" then "Unknown Product" else name.

(** The [for (const item of cart.items)] loop on the populated lines; the
    result is [issues] and [validItems]. *)
Fixpoint validateLoop (docs : gmap ObjectId ProductDoc)
    (cartItems : list CartItem) (issues : list Issue) (validItems : list CartItem)
    : list Issue * list CartItem :=
  match cartItems with
  | [] => (issues, validItems)
  | item :: rest =>
      match docs !! ci_product item with
      | None =>
          validateLoop docs rest
            (issues ++ [unavailable None "Unknown Product"]) validItems
      | Some d =>
          let product := doc_core d in
          if negb (p_isActive product) then
            validateLoop docs rest
              (issues ++ [unavailable (Some (ci_product item))
                                      (name_or_unknown (p_name product))])
              validItems
          else if negb (stock_isInStock product) || (stock_quantity product =? 0)
          then
            validateLoop docs rest
              (issues ++ [out_of_stock (ci_product item) (p_name product)])
              validItems
          else
            let short := stock_quantity product <? ci_quantity item in
            let issues1 :=
              if short then
                issues ++ [insufficient_stock (ci_product item) (p_name product)
                             (ci_quantity item) (stock_quantity product)]
              else issues in
            let quantity1 :=
              if short then stock_quantity product else ci_quantity item in
            let changed := deviates (ci_price item) (currentPrice d) in
            let issues2 :=
              if changed then
                issues1 ++ [price_change (ci_product item) (p_name product)
                              (ci_price item) (currentPrice d)]
              else issues1 in
            let price2 := if changed then currentPrice d else ci_price item in
            validateLoop docs rest issues2
              (validItems ++ [mkCartItem (ci_product item) quantity1 price2])
      end
  end.

Record Validation := mkValidation {
  v_message : string;
  isValid : bool;
  v_issues : list Issue;
  v_cart : option (list CartItem)
}.

(** The handler, given what [Cart.findOne] returned: the answer (always
    200) and the cart as stored afterwards. The cart of a valid answer is
    the one in memory, the cart of any other answer is read again from the
    store. *)
Definition validateCart (docs : gmap ObjectId ProductDoc)
    (cart : option (list CartItem)) : Validation * option (list CartItem) :=
  match cart with
  | None => (mkValidation "Cart is empty" true [] None, cart)
  | Some [] => (mkValidation "Cart is empty" true [] None, cart)
  | Some cartItems =>
      let '(issues, validItems) := validateLoop docs cartItems [] [] in
      let stored := if existsb removesLine issues then validItems else cartItems in
      match issues with
      | [] => (mkValidation "Cart is valid" true issues (Some cartItems), Some stored)
      | _ =>
          (mkValidation "Cart validation completed with issues" false issues
             (Some stored),
           Some stored)
      end
  end.

(** A cart as the cart routes build it: one line per product, quantities
    from 1 to 10. *)
Definition cart_ok (cartItems : list CartItem) : Prop :=
  NoDup (ci_product <$> cartItems)
  ∧ Forall (fun item => 1 ≤ ci_quantity item ≤ 10) cartItems.

(** The stock parts of the product collection, as the order routes read
    them. *)
Definition cores (docs : gmap ObjectId ProductDoc) : gmap ObjectId Product :=
  doc_core <$> docs.

(** What one pass of the loop of the validate route adds to [issues] and
    to [validItems] for one line. *)
Definition validateLine (docs : gmap ObjectId ProductDoc) (item : CartItem)
    : list Issue * list CartItem :=
  validateLoop docs [item] [] [].

(** The line's product is stored, active, flagged in stock and has a
    stock quantity other than zero: the validate route keeps the line. *)
Definition lineKept (docs : gmap ObjectId ProductDoc) (item : CartItem) : bool :=
  match docs !! ci_product item with
  | Some d =>
      p_isActive (doc_core d) && stock_isInStock (doc_core d)
      && negb (stock_quantity (doc_core d) =? 0)
  | None => false
  end.

(** The line's quantity is at most the stock quantity of its product. *)
Definition lineCovered (docs : gmap ObjectId ProductDoc) (item : CartItem) : bool :=
  match docs !! ci_product item with
  | Some d => ci_quantity item <=? stock_quantity (doc_core d)
  | None => false
  end.

(** The line's price passes the price test of the validate route against
    the current price of its product. *)
Definition priceCurrent (docs : gmap ObjectId ProductDoc) (item : CartItem) : bool :=
  match docs !! ci_product item with
  | Some d => negb (deviates (ci_price item) (currentPrice d))
  | None => false
  end.

(** The stored orders that belong to users other than [reqUser]. *)
Definition othersOrders (reqUser : ObjectId) (os : list Order) : list Order :=
  filter (fun o => user o ≠ reqUser) os.

(** No stock quantity of the collection is below zero. *)
Definition docs_stock_nonneg (docs : gmap ObjectId ProductDoc) : Prop :=
  ∀ id d, docs !! id = Some d → 0 ≤ stock_quantity (doc_core d).

(** * Properties *)

(** ** Numbers *)

(** A Number does not deviate from itself. *)
Lemma deviates_same a : deviates a a = false.
Proof.
  unfold deviates. destruct (toNumber a) as [s|s| |s m e]; cbn [SFsub].
  - by destruct s.
  - by destruct s.
  - done.
  - rewrite Z.sub_diag. by vm_compute.
Qed.

(** ** Lists of statuses and the transition table *)

Lemma statusTransitions_Transition s t :
  includes (statusTransitions s) t = true ↔ Transition s t.
Proof.
  split.
  - destruct s, t; cbn; intros H; try discriminate H; constructor.
  - destruct 1; reflexivity.
Qed.

Lemma statusTransitions_not_Transition s t :
  includes (statusTransitions s) t = false ↔ ¬ Transition s t.
Proof.
  rewrite <- statusTransitions_Transition.
  destruct (includes (statusTransitions s) t); split; intros H; done.
Qed.

(** ** The status state machine *)

Lemma ParallelSaveError_id o o' : _id o' = _id o → ParallelSaveError o' = ParallelSaveError o.
Proof. unfold ParallelSaveError. by intros ->. Qed.

Lemma stampTimestamps_fields now newStatus updatedBy o :
  _id (stampTimestamps now newStatus updatedBy o) = _id o
  ∧ orderStatus (stampTimestamps now newStatus updatedBy o) = orderStatus o
  ∧ timeline (stampTimestamps now newStatus updatedBy o) = timeline o
  ∧ items (stampTimestamps now newStatus updatedBy o) = items o
  ∧ user (stampTimestamps now newStatus updatedBy o) = user o
  ∧ paymentDetails (stampTimestamps now newStatus updatedBy o) = paymentDetails o.
Proof. by destruct newStatus. Qed.

(** What [updateStatus] does on a target that the table allows. *)
Lemma updateStatus_allowed now newStatus message updatedBy o :
  includes (statusTransitions (orderStatus o)) newStatus = true →
  let call := updateStatus now newStatus message updatedBy o in
  sc_outcome call = Thrown (ParallelSaveError o)
  ∧ sc_saveUnderWay call = true
  ∧ sc_document call
    = stampTimestamps now newStatus updatedBy
        (set_orderStatus newStatus
           (timeline_push (mkTimelineEntry newStatus message now updatedBy) o))
  ∧ orderStatus (sc_document call) = newStatus
  ∧ timeline (sc_document call)
    = timeline o ++ [mkTimelineEntry newStatus message now updatedBy]
  ∧ _id (sc_document call) = _id o
  ∧ user (sc_document call) = user o
  ∧ items (sc_document call) = items o
  ∧ paymentDetails (sc_document call) = paymentDetails o.
Proof.
  intros H call. subst call. unfold updateStatus. rewrite H.
  cbn [negb addTimelineEntry sc_outcome sc_document sc_saveUnderWay save].
  by destruct newStatus.
Qed.

(** What [updateStatus] does on a target that the table does not allow. *)
Lemma updateStatus_refused now newStatus message updatedBy o :
  includes (statusTransitions (orderStatus o)) newStatus = false →
  updateStatus now newStatus message updatedBy o
  = mkStatusCall
      (Thrown (mkError ("Cannot transition from " +:+ status_name (orderStatus o)
                        +:+ " to " +:+ status_name newStatus)))
      o false.
Proof. intros H. unfold updateStatus. by rewrite H. Qed.

(** C1. The table of [updateStatus] is the transition table of the
    specification, and a target that it does not allow is refused with an
    error that holds the current and the requested status, the document
    staying as it was: an order at [shipped] asked to move to [processing]
    is refused. On a target that the table allows the method sets the
    status, appends the timeline entry and stamps the timestamp on the
    document, but the promise it returns is rejected with a
    ParallelSaveError, because the save that [addTimelineEntry] started is
    still under way when the method saves: no call of [updateStatus]
    succeeds. *)
Theorem updateStatus_never_succeeds :
  ∀ now newStatus message updatedBy o,
    let call := updateStatus now newStatus message updatedBy o in
    (includes (statusTransitions (orderStatus o)) newStatus = true
     ↔ Transition (orderStatus o) newStatus)
    ∧ sc_outcome call ≠ Resolved tt
    ∧ (if includes (statusTransitions (orderStatus o)) newStatus then
         sc_outcome call = Thrown (ParallelSaveError o)
         ∧ orderStatus (sc_document call) = newStatus
         ∧ timeline (sc_document call)
           = timeline o ++ [mkTimelineEntry newStatus message now updatedBy]
       else
         call
         = mkStatusCall
             (Thrown (mkError ("Cannot transition from "
                               +:+ status_name (orderStatus o)
                               +:+ " to " +:+ status_name newStatus)))
             o false)
    ∧ sc_outcome (updateStatus 5 confirmed None (Some 2%N) (sampleOrder pending))
      = Thrown (mkError
          "Can't save() the same doc multiple times in parallel. Document: 000000000000000000000009")
    ∧ updateStatus 5 processing None (Some 2%N) (sampleOrder shipped)
      = mkStatusCall
          (Thrown (mkError "Cannot transition from shipped to processing"))
          (sampleOrder shipped) false.
Proof.
  intros now newStatus message updatedBy o call.
  split; [apply statusTransitions_Transition|].
  destruct (includes (statusTransitions (orderStatus o)) newStatus) eqn:E.
  - destruct (updateStatus_allowed now newStatus message updatedBy o E)
      as (Hout & _ & _ & Hst & Htl & _).
    fold call in Hout, Hst, Htl. rewrite Hout. by repeat split.
  - subst call. rewrite (updateStatus_refused _ _ _ _ _ E). by repeat split.
Qed.

(** ** The validation loop of order placement *)

Section ValidationLoop.
Context (ps : gmap ObjectId Product).

Lemma validateCartItems_passes pre rest acc :
  Forall (fun l => linePasses ps l = true) pre →
  validateCartItems ps (pre ++ rest) acc
  = validateCartItems ps rest (acc ++ (orderItemOf ps <$> pre)).
Proof.
  intros H. revert acc. induction H as [|l pre Hl _ IH]; intros acc.
  - cbn. by rewrite app_nil_r.
  - cbn [validateCartItems app fmap list_fmap].
    unfold linePasses, stockCheckFails in Hl.
    assert (Hitem : orderItemOf ps l
                    = mkOrderItem (ci_product l)
                        (from_option p_name "" (ps !! ci_product l))
                        (ci_quantity l) (ci_price l)
                        (Number_mul (ci_price l) (inject_Z (ci_quantity l))))
      by done.
    destruct (ps !! ci_product l) as [p|]; [|done].
    apply andb_true_iff in Hl as [Ha Hs]. rewrite Ha. cbn [negb].
    apply negb_true_iff in Hs. rewrite Hs.
    rewrite IH, Hitem. cbn. by rewrite <- app_assoc.
Qed.

Lemma validateCartItems_all_pass cartItems acc :
  Forall (fun l => linePasses ps l = true) cartItems →
  validateCartItems ps cartItems acc
  = LoopDone true (acc ++ (orderItemOf ps <$> cartItems)).
Proof.
  intros H. rewrite <- (app_nil_r cartItems) at 1.
  by rewrite validateCartItems_passes.
Qed.

(** The loop's result at the first line that does not pass. *)
Lemma validateCartItems_stops pre l post acc :
  Forall (fun l => linePasses ps l = true) pre →
  linePasses ps l = false →
  match ps !! ci_product l with
  | Some p =>
      if p_isActive p then
        stockCheckFails p l = true
        ∧ validateCartItems ps (pre ++ l :: post) acc
          = LoopReturn (sendErrorResponse 400 (insufficientStockMessage p))
      else ∃ orderItems,
          validateCartItems ps (pre ++ l :: post) acc = LoopDone false orderItems
  | None => ∃ orderItems,
      validateCartItems ps (pre ++ l :: post) acc = LoopDone false orderItems
  end.
Proof.
  intros Hpre Hl. rewrite validateCartItems_passes by done. cbn.
  unfold linePasses in Hl. fold (stockCheckFails).
  destruct (ps !! ci_product l) as [p|]; [|by eexists].
  destruct (p_isActive p); cbn in *; [|by eexists].
  apply negb_false_iff in Hl. split; [done|].
  unfold stockCheckFails in Hl. by rewrite Hl.
Qed.

Lemma first_not_passing (cartItems : list CartItem) :
  (∃ l, l ∈ cartItems ∧ linePasses ps l = false) →
  ∃ pre l post,
    cartItems = pre ++ l :: post
    ∧ Forall (fun l => linePasses ps l = true) pre
    ∧ linePasses ps l = false.
Proof.
  induction cartItems as [|x xs IH]; intros (l & Hin & Hl).
  - by apply elem_of_nil in Hin.
  - destruct (linePasses ps x) eqn:Hx.
    + apply elem_of_cons in Hin as [->|Hin]; [congruence|].
      destruct IH as (pre & l' & post & -> & Hpre & Hl'); [by eauto|].
      exists (x :: pre), l', post. split; [done|]. split; [|done].
      by constructor.
    + exists [], x, xs. by repeat split.
Qed.

Lemma exceeding_line_not_passing l p :
  ps !! ci_product l = Some p →
  stock_quantity p < ci_quantity l →
  linePasses ps l = false.
Proof.
  intros Hp Hq. unfold linePasses, stockCheckFails. rewrite Hp.
  apply Z.ltb_lt in Hq. rewrite Hq, orb_true_r. cbn. apply andb_false_r.
Qed.

Lemma validateCartItems_return cartItems acc r :
  validateCartItems ps cartItems acc = LoopReturn r →
  res_success r = false ∧ res_order r = None.
Proof.
  revert acc. induction cartItems as [|c cs IH]; intros acc;
    cbn [validateCartItems]; [done|].
  destruct (ps !! ci_product c) as [p|]; [|done].
  destruct (p_isActive p); [|done]. cbn [negb].
  destruct (negb (stock_isInStock p) || (stock_quantity p <? ci_quantity c)).
  - by intros [= <-].
  - apply IH.
Qed.

End ValidationLoop.

(** ** Order placement against insufficient stock *)

(** C2 (as the code has it). When some cart line asks for more than its
    product's stock quantity, placing the order fails, no order is created
    and the store (stock quantities, carts, orders) is left as it was.
    Which failure is reported is decided by the first cart line that does
    not pass the loop: for a request that passed field validation it is
    the insufficient-stock error naming that line's product and its
    available quantity when that product exists and is active, and the
    "no longer available" error when it does not exist or is inactive. *)
Theorem createOrder_insufficient_stock :
  ∀ now newId pathsValid req db cartItems line p,
    carts db !! req_user req = Some cartItems →
    line ∈ cartItems →
    products db !! ci_product line = Some p →
    stock_quantity p < ci_quantity line →
    let r := createOrder now newId pathsValid req db in
    res_success (fst r) = false ∧ res_order (fst r) = None ∧ snd r = db
    ∧ ∃ pre l post,
        cartItems = pre ++ l :: post
        ∧ Forall (fun l => linePasses (products db) l = true) pre
        ∧ (req_validationErrors req = [] →
           match products db !! ci_product l with
           | Some p' =>
               if p_isActive p' then
                 stockCheckFails p' l = true
                 ∧ fst r = sendErrorResponse 400
                             ("Insufficient stock for " +:+ p_name p'
                              +:+ ". Available: "
                              +:+ string_of_Z (stock_quantity p'))
               else
                 fst r = sendErrorResponse 400
                           "Some products in cart are no longer available"
           | None =>
               fst r = sendErrorResponse 400
                         "Some products in cart are no longer available"
           end).
Proof.
  intros now newId pathsValid req db cartItems line p Hcart Hin Hp Hq r.
  destruct (first_not_passing (products db) cartItems) as
    (pre & l & post & Hsplit & Hpre & Hl).
  { exists line. split; [done|]. by eapply exceeding_line_not_passing. }
  pose proof (validateCartItems_stops (products db) pre l post [] Hpre Hl) as Hstop.
  rewrite <- Hsplit in Hstop.
  assert (Hne : ∃ c cs, cartItems = c :: cs).
  { destruct cartItems; [by destruct pre|by eauto]. }
  destruct Hne as (c & cs & Hc).
  subst r. unfold createOrder. rewrite Hcart. rewrite Hc in *. clear Hc.
  destruct (bool_decide (req_validationErrors req = [])) eqn:Hv; cbn [negb].
  2:{ apply bool_decide_eq_false in Hv. repeat split; try done.
      exists pre, l, post. by repeat split. }
  destruct (products db !! ci_product l) as [p'|] eqn:Hl'.
  - destruct (p_isActive p') eqn:Ha.
    + destruct Hstop as [Hf ->]. repeat split; try done.
      exists pre, l, post. rewrite Hl', Ha. by repeat split.
    + destruct Hstop as [orderItems ->]. repeat split; try done.
      exists pre, l, post. rewrite Hl', Ha. by repeat split.
  - destruct Hstop as [orderItems ->]. repeat split; try done.
    exists pre, l, post. rewrite Hl'. by repeat split.
Qed.

(** A product with one unit in stock and a cart that asks for two. *)
Lemma createOrder_insufficient_stock_witness :
  let db := mkDb {[ 1%N := mkProduct "Ganesh Idol" 1000 true 1 true ]}
                 {[ 7%N := [mkCartItem 1%N 2 1000] ]} [] in
  let r := createOrder 0 9%N true (mkCreateOrderRequest 7%N [] cod) db in
  res_success (fst r) = false ∧ res_order (fst r) = None ∧ snd r = db
  ∧ fst r = sendErrorResponse 400 "Insufficient stock for Ganesh Idol. Available: 1".
Proof.
  intros db r.
  destruct (createOrder_insufficient_stock 0 9%N true (mkCreateOrderRequest 7%N [] cod) db
              [mkCartItem 1%N 2 1000] (mkCartItem 1%N 2 1000)
              (mkProduct "Ganesh Idol" 1000 true 1 true))
    as (H1 & H2 & H3 & _).
  - reflexivity.
  - apply list_elem_of_here.
  - reflexivity.
  - cbn. lia.
  - split; [assumption|]. split; [assumption|]. split; [assumption|].
    reflexivity.
Defined.

(** C2 as stated fails: a line whose product has been deactivated asks
    for more than the stock, and the order is refused with the
    "no longer available" error, not with an insufficient-stock error. *)
Lemma createOrder_inactive_product_not_insufficient_stock :
  ¬ (∀ now newId pathsValid req db cartItems line p,
       carts db !! req_user req = Some cartItems →
       line ∈ cartItems →
       products db !! ci_product line = Some p →
       stock_quantity p < ci_quantity line →
       ∃ p', fst (createOrder now newId pathsValid req db)
             = sendErrorResponse 400 (insufficientStockMessage p')).
Proof.
  intros H.
  destruct (H 0 9%N true (mkCreateOrderRequest 7%N [] cod)
              (mkDb {[ 1%N := mkProduct "Ganesh Idol" 1000 false 0 false ]}
                    {[ 7%N := [mkCartItem 1%N 1 1000] ]} [])
              [mkCartItem 1%N 1 1000] (mkCartItem 1%N 1 1000)
              (mkProduct "Ganesh Idol" 1000 false 0 false)) as [p' Hp'].
  - reflexivity.
  - apply list_elem_of_here.
  - reflexivity.
  - cbn. lia.
  - vm_compute in Hp'. discriminate Hp'.
Qed.

(** ** Order placement never goes through *)

(** No document of the placement handler is accepted. *)
Lemma Order_create_placement pathsValid newId u orderItems summary method :
  Order_create placementPaths pathsValid newId u orderItems summary method
  = Thrown (mkError "Order validation failed").
Proof. reflexivity. Qed.

(** The handler always refuses, and leaves the store alone. *)
Lemma createOrder_inv now newId pathsValid req db :
  res_success (fst (createOrder now newId pathsValid req db)) = false
  ∧ res_order (fst (createOrder now newId pathsValid req db)) = None
  ∧ snd (createOrder now newId pathsValid req db) = db.
Proof.
  unfold createOrder.
  destruct (negb _); [done|].
  destruct (carts db !! req_user req) as [[|c cs]|] eqn:Hcart; [done| |done].
  destruct (validateCartItems _ _ _) as [r|[] orderItems] eqn:Hloop.
  - apply validateCartItems_return in Hloop as [? ?]. by repeat split.
  - by rewrite Order_create_placement.
  - done.
Qed.

(** A cart whose lines all pass the loop gets as far as [Order.create]. *)
Lemma createOrder_all_pass now newId pathsValid req db cartItems :
  req_validationErrors req = [] →
  carts db !! req_user req = Some cartItems →
  cartItems ≠ [] →
  Forall (fun l => linePasses (products db) l = true) cartItems →
  createOrder now newId pathsValid req db
  = (sendErrorResponse 500 "Error creating order", db).
Proof.
  intros Hv Hcart Hne Hpass. unfold createOrder.
  rewrite (bool_decide_eq_true_2 _ Hv), Hcart. cbn [negb].
  destruct cartItems as [|c cs]; [done|].
  by rewrite validateCartItems_all_pass, Order_create_placement.
Qed.

(** [Math.round] returns the integer within one half of its argument,
    the upper one on a tie. *)
Lemma Math_round_spec x :
  (inject_Z (Math_round x) - (1 # 2) <= x)%Q
  ∧ (x < inject_Z (Math_round x) + (1 # 2))%Q.
Proof.
  unfold Math_round.
  pose proof (Qfloor_le (x + (1 # 2))) as Hle.
  pose proof (Qlt_floor (x + (1 # 2))) as Hlt.
  split.
  - apply Qplus_le_l with (z := (1 # 2)%Q). ring_simplify.
    ring_simplify in Hle. exact Hle.
  - apply Qplus_lt_l with (z := (1 # 2)%Q).
    eapply Qlt_le_trans; [exact Hlt|].
    rewrite inject_Z_plus. ring_simplify. apply Qle_refl.
Qed.

(** C4. The handler computes the summary that the specification states,
    in binary64: the subtotal is the sum of the line totals, tax is the
    subtotal times 0.18 rounded, shipping is 0 from a subtotal of 2000 on
    and 200 below, the total is their sum with a discount of 0; for 2 units
    of a 1000 item that is 2000, 360, 0 and 2360. [calculateTotals] computes
    the same on the lines of a document and takes the document's discount
    off the total. In binary64 the line totals 788.15, 700.01 and 511.84
    add up to 1999.9999999999998, so that shipping is 200. But the document
    that the handler hands to [Order.create] has no order number, so it is
    rejected: no request places an order, the answer is never a success and
    the store is left as it was. The cart of 2 units of a 1000 item is
    answered 500. *)
Theorem createOrder_never_places :
  ∀ now newId pathsValid req db orderItems o,
    let r := createOrder now newId pathsValid req db in
    let s := computeSummary orderItems in
    let t := orderSummary (calculateTotals o) in
    (res_success (fst r) = false ∧ res_order (fst r) = None ∧ snd r = db)
    ∧ subtotal s
      = fold_left (fun sum i => Number_add sum (oi_totalPrice i)) orderItems 0%Q
    ∧ tax s = inject_Z (Math_round (Number_mul (subtotal s) (18 # 100)))
    ∧ shipping s = (if Number_geb (subtotal s) 2000 then 0%Q else 200%Q)
    ∧ total s = Number_add (Number_add (subtotal s) (tax s)) (shipping s)
    ∧ discount s = 0%Q
    ∧ subtotal t
      = fold_left (fun sum i => Number_add sum (oi_totalPrice i)) (items o) 0%Q
    ∧ tax t = inject_Z (Math_round (Number_mul (subtotal t) (18 # 100)))
    ∧ shipping t = (if Number_geb (subtotal t) 2000 then 0%Q else 200%Q)
    ∧ discount t = discount (orderSummary o)
    ∧ total t
      = Number_sub (Number_add (Number_add (subtotal t) (tax t)) (shipping t))
                   (discount t)
    ∧ (let db0 := mkDb {[ 1%N := mkProduct "Ganesh Idol" 1000 true 5 true ]}
                       {[ 7%N := [mkCartItem 1%N 2 1000] ]} [] in
       validateCartItems (products db0) [mkCartItem 1%N 2 1000] []
       = LoopDone true [mkOrderItem 1%N "Ganesh Idol" 2 1000 2000]
       ∧ computeSummary [mkOrderItem 1%N "Ganesh Idol" 2 1000 2000]
         = mkOrderSummary 2000 360 0 0 2360
       ∧ orderSummary (calculateTotals (sampleOrder pending))
         = mkOrderSummary 2000 360 0 0 2360
       ∧ createOrder 0 9%N true (mkCreateOrderRequest 7%N [] cod) db0
         = (sendErrorResponse 500 "Error creating order", db0))
    ∧ computeSummary
        [mkOrderItem 1%N "Ganesh Idol" 1 (78815 # 100) (78815 # 100);
         mkOrderItem 2%N "Krishna Idol" 1 (70001 # 100) (70001 # 100);
         mkOrderItem 3%N "Lakshmi Idol" 1 (51184 # 100) (51184 # 100)]
      = mkOrderSummary (8796093022207999 # 4398046511104) 360 200 0 2560.
Proof.
  intros now newId pathsValid req db orderItems o r s t.
  split; [apply createOrder_inv|].
  repeat (split; [reflexivity|]).
  split; by vm_compute.
Qed.

(** ** Documents found and written back *)

Section Found.
Context (p : Order → bool).

Lemma findOne_split l o :
  findOne p l = Some o →
  ∃ pre post, l = pre ++ o :: post ∧ Forall (fun x => p x = false) pre ∧ p o = true.
Proof.
  unfold findOne. induction l as [|x xs IH]; cbn; [done|].
  destruct (p x) eqn:Hx.
  - intros [= ->]. by exists [], xs.
  - intros (pre & post & -> & Hpre & Ho)%IH.
    exists (x :: pre), post. repeat split; [|done]. by constructor.
Qed.

Lemma findOne_app pre o post :
  Forall (fun x => p x = false) pre → p o = true →
  findOne p (pre ++ o :: post) = Some o.
Proof.
  unfold findOne. induction 1 as [|x xs Hx _ IH]; intros Ho; cbn.
  - by rewrite Ho.
  - rewrite Hx. by apply IH.
Qed.

Lemma saveFound_app o' pre o post :
  Forall (fun x => p x = false) pre → p o = true →
  saveFound p o' (pre ++ o :: post) = pre ++ o' :: post.
Proof.
  induction 1 as [|x xs Hx _ IH]; intros Ho; cbn.
  - by rewrite Ho.
  - rewrite Hx. by rewrite IH.
Qed.

Lemma findOne_elem_of l o : findOne p l = Some o → o ∈ l.
Proof.
  intros (pre & post & -> & _)%findOne_split.
  apply elem_of_app. right. apply list_elem_of_here.
Qed.

End Found.

(** ** Stock arithmetic *)

Lemma incQuantity_incQuantity a b p :
  incQuantity b (incQuantity a p) = incQuantity (a + b) p.
Proof. unfold incQuantity. cbn. f_equal. lia. Qed.

Lemma incQuantity_0 p : incQuantity 0 p = p.
Proof. destruct p. unfold incQuantity. cbn. f_equal. lia. Qed.

Lemma orderedQuantity_cons id i rest :
  orderedQuantity id (i :: rest)
  = if bool_decide (oi_product i = id)
    then oi_quantity i + orderedQuantity id rest
    else orderedQuantity id rest.
Proof. reflexivity. Qed.


Lemma restoreStock_lookup orderItems ps id :
  restoreStock orderItems ps !! id
  = incQuantity (orderedQuantity id orderItems) <$> ps !! id.
Proof.
  unfold restoreStock. revert ps.
  induction orderItems as [|i rest IH]; intros ps.
  - cbn. destruct (ps !! id); cbn; [|done]. by rewrite incQuantity_0.
  - cbn [fold_left]. rewrite IH, orderedQuantity_cons.
    unfold findByIdAndUpdate_inc. case_bool_decide as Hid.
    + subst id. rewrite lookup_alter_eq.
      destruct (ps !! oi_product i); cbn; [|done].
      by rewrite incQuantity_incQuantity.
    + by rewrite lookup_alter_ne.
Qed.

Lemma orderedQuantity_nonneg id orderItems :
  Forall (fun i => 1 ≤ oi_quantity i) orderItems →
  0 ≤ orderedQuantity id orderItems.
Proof.
  induction 1 as [|i rest Hi _ IH]; [done|].
  rewrite orderedQuantity_cons. case_bool_decide; lia.
Qed.


(** ** Cancellation *)

(** C5 (as the code has it). The cancel route accepts an order of the
    requesting user only in status [pending] or [confirmed]: it then sets
    the status to [cancelled] and adds every line's quantity back to the
    stock quantity of the line's product, changing nothing else of the
    products; a second cancel of the same order is refused with status 400
    and a message that names the current status, and changes nothing. In
    any other status, [processing] included, the route refuses the same way
    and changes nothing. *)
Theorem cancelOrder_restores_stock :
  ∀ now reqUser orderId reason db order,
    findOne (hasId orderId) (orders db) = Some order →
    user order = reqUser →
    let r := cancelOrder now reqUser orderId reason db in
    (orderStatus order = pending ∨ orderStatus order = confirmed →
       res_success (fst r) = true
       ∧ (∃ order',
            findOne (hasId orderId) (orders (snd r)) = Some order'
            ∧ orderStatus order' = cancelled
            ∧ items order' = items order)
       ∧ (∀ id, products (snd r) !! id
                = incQuantity (orderedQuantity id (items order))
                    <$> products db !! id)
       ∧ (∀ now' reason',
            cancelOrder now' reqUser orderId reason' (snd r)
            = (sendErrorResponse 400 "Cannot cancel order with status: cancelled",
               snd r)))
    ∧ (orderStatus order ≠ pending → orderStatus order ≠ confirmed →
       r = (sendErrorResponse 400
              ("Cannot cancel order with status: " +:+ status_name (orderStatus order)),
            db)).
Proof.
  intros now reqUser orderId reason db order Hfind Huser r. subst r.
  destruct (findOne_split _ _ _ Hfind) as (pre & post & Hl & Hpre & Ho).
  unfold cancelOrder. rewrite Hfind.
  rewrite (bool_decide_eq_true_2 _ Huser). cbn [negb].
  split.
  - intros Hst.
    assert (Hinc : includes cancellableStatuses (orderStatus order) = true).
    { by destruct Hst as [-> | ->]. }
    rewrite Hinc. cbn [negb fst snd products orders].
    set (order3 := timeline_push _ _).
    assert (Hfind' : findOne (hasId orderId)
                       (saveFound (hasId orderId) order3 (orders db)) = Some order3).
    { rewrite Hl, saveFound_app by done. by apply findOne_app. }
    split; [done|]. split; [by exists order3|]. split.
    + intros id. apply restoreStock_lookup.
    + intros now' reason'. rewrite Hfind'.
      rewrite (bool_decide_eq_true_2 (user order3 = reqUser)) by done.
      reflexivity.
  - intros Hp Hc.
    assert (Hinc : includes cancellableStatuses (orderStatus order) = false).
    { by destruct (orderStatus order). }
    by rewrite Hinc.
Qed.

(** The admin status route, which may move a [processing] order to
    [cancelled], never writes to the products. *)
Lemma updateOrderStatus_keeps_products now lands orderId req db :
  products (snd (updateOrderStatus now lands orderId req db)) = products db
  ∧ carts (snd (updateOrderStatus now lands orderId req db)) = carts db.
Proof. unfold updateOrderStatus, settle. by repeat case_match. Qed.

(** Cancelling the confirmed sample order puts its two units back. *)
Lemma cancelOrder_restores_stock_witness :
  let r := cancelOrder 5 7%N 9%N None (sampleDb confirmed) in
  res_success (fst r) = true
  ∧ products (snd r) !! 1%N = Some (mkProduct "Ganesh Idol" 1000 true 5 true)
  ∧ cancelOrder 6 7%N 9%N None (snd r)
    = (sendErrorResponse 400 "Cannot cancel order with status: cancelled", snd r).
Proof.
  intros r.
  destruct (cancelOrder_restores_stock 5 7%N 9%N None (sampleDb confirmed)
              (sampleOrder confirmed) eq_refl eq_refl) as [H _].
  destruct (H (or_intror eq_refl)) as (H1 & _ & H3 & H4).
  split; [exact H1|]. split; [|exact (H4 6 None)].
  subst r. rewrite H3. reflexivity.
Defined.

(** C5 as stated fails: the cancel route refuses an order in
    [processing], so its status does not become [cancelled]. *)
Lemma cancelOrder_processing_refused :
  ¬ (∀ now reqUser orderId reason db order,
       findOne (hasId orderId) (orders db) = Some order →
       user order = reqUser →
       orderStatus order = processing →
       ∃ order',
         findOne (hasId orderId)
                 (orders (snd (cancelOrder now reqUser orderId reason db)))
         = Some order'
         ∧ orderStatus order' = cancelled).
Proof.
  intros H.
  destruct (H 5 7%N 9%N None (sampleDb processing) (sampleOrder processing)
              eq_refl eq_refl eq_refl) as (order' & Hfind & Hst).
  vm_compute in Hfind. injection Hfind as <-. discriminate Hst.
Qed.

(** ** Stock is never negative *)

Lemma saveFound_orders_valid p o o' l :
  findOne p l = Some o →
  items o' = items o →
  orders_valid l →
  orders_valid (saveFound p o' l).
Proof.
  intros (pre & post & -> & Hpre & Ho)%findOne_split Hitems Hvalid.
  rewrite saveFound_app by done. unfold orders_valid in *.
  apply Forall_app in Hvalid as [H1 H2]. apply Forall_cons in H2 as [H2 H3].
  apply Forall_app. split; [done|]. apply Forall_cons. split; [|done].
  by rewrite Hitems.
Qed.

Lemma updateStatus_items now newStatus message updatedBy o :
  items (sc_document (updateStatus now newStatus message updatedBy o)) = items o.
Proof.
  unfold updateStatus. destruct (negb _); [done|]. by destruct newStatus.
Qed.

Lemma applyPaymentSuccess_items now intentId o :
  items (applyPaymentSuccess now intentId o) = items o.
Proof. unfold applyPaymentSuccess. by case_bool_decide. Qed.

Lemma cancelOrder_preserves_inv now reqUser orderId reason db :
  store_inv db → store_inv (snd (cancelOrder now reqUser orderId reason db)).
Proof.
  intros (Hstock & Horders). unfold cancelOrder.
  destruct (findOne _ _) as [order|] eqn:Hfind; [|done].
  destruct (negb (bool_decide _)); [done|].
  destruct (negb (includes _ _)); [done|].
  cbn [snd]. split; cbn [products carts orders].
  - intros id p' Hp'. rewrite restoreStock_lookup in Hp'.
    destruct (products db !! id) as [p|] eqn:Hp; [|done].
    injection Hp' as <-. cbn.
    pose proof (Hstock _ _ Hp) as Hpos.
    assert (Hq : 0 ≤ orderedQuantity id (items order)).
    { apply orderedQuantity_nonneg.
      apply findOne_elem_of in Hfind.
      unfold orders_valid in Horders. rewrite Forall_forall in Horders.
      by apply Horders. }
    lia.
  - by eapply saveFound_orders_valid.
Qed.

(** The quick-buy route changes no stock. *)
Lemma quickBuy_inv req ps :
  res_success (fst (fst (quickBuy req ps))) = false
  ∧ snd (fst (quickBuy req ps)) = ps
  ∧ snd (quickBuy req ps) = None.
Proof.
  unfold quickBuy.
  destruct (negb (bool_decide _)); [done|].
  destruct (ps !! qb_productId req) as [productData|] eqn:Hp; [|done].
  destruct (negb (stock_isInStock productData) || _); [done|].
  by destruct (pricingMismatch _ _).
Qed.

(** A handler that at most writes back the order it found, with the
    order's lines as they were, keeps the invariant. *)
Ltac writes_back_same_items :=
  repeat case_match; cbn [snd]; repeat split; try done; cbn [orders];
  by eapply saveFound_orders_valid.

Lemma step_preserves_inv db op : store_inv db → store_inv (step db op).
Proof.
  intros Hinv. destruct op; cbn [step].
  - by rewrite (proj2 (proj2 (createOrder_inv now newId pathsValid req db))).
  - by apply cancelOrder_preserves_inv.
  - destruct Hinv as (Hstock & Horders). unfold updateOrderStatus, settle.
    destruct (negb (bool_decide _)); [done|].
    destruct (findOne _ _) as [order|] eqn:Hfind; [|done].
    pose proof (updateStatus_items now (su_status req) (su_message req)
                  (Some (su_admin req)) order) as Hitems.
    destruct (updateStatus _ _ _ _ _) as [[[]|e] order1 underWay];
      cbn [sc_outcome sc_document sc_saveUnderWay snd] in *.
    + split; [done|]. cbn [orders].
      eapply saveFound_orders_valid; [done| |done].
      rewrite <- Hitems. by case_bool_decide.
    + destruct (underWay && lands); [|done]. split; [done|]. cbn [orders].
      by eapply saveFound_orders_valid.
  - destruct Hinv as (Hstock & Horders). unfold confirmPayment.
    writes_back_same_items.
  - destruct Hinv as (Hstock & Horders). unfold handlePaymentSuccess.
    destruct (findOne _ _) as [order|] eqn:Hfind; [|done].
    destruct (negb (bool_decide _)); [|done].
    repeat split; try done. cbn [orders].
    eapply saveFound_orders_valid; [done| |done].
    apply applyPaymentSuccess_items.
  - destruct Hinv as (Hstock & Horders).
    unfold handlePaymentFailed, handlePaymentFailure. writes_back_same_items.
  - destruct Hinv as (Hstock & Horders).
    unfold handlePaymentCanceled, handlePaymentFailure. writes_back_same_items.
  - destruct Hinv as (Hstock & Horders). unfold createPaymentIntent.
    writes_back_same_items.
  - destruct Hinv as (Hstock & Horders). unfold processRefund.
    writes_back_same_items.
Qed.

Lemma run_preserves_inv ops db : store_inv db → store_inv (run db ops).
Proof.
  unfold run. revert db. induction ops as [|op ops IH]; intros db Hinv; [done|].
  cbn [fold_left]. by apply IH, step_preserves_inv.
Qed.

(** Only a cancellation writes to the products. *)
Lemma step_products db op :
  isCancel op = false → products (step db op) = products db.
Proof.
  destruct op; cbn [step isCancel]; intros Hop; try done.
  - by rewrite (proj2 (proj2 (createOrder_inv now newId pathsValid req db))).
  - apply updateOrderStatus_keeps_products.
  - unfold confirmPayment. by repeat case_match.
  - unfold handlePaymentSuccess. by repeat case_match.
  - unfold handlePaymentFailed, handlePaymentFailure. by repeat case_match.
  - unfold handlePaymentCanceled, handlePaymentFailure. by repeat case_match.
  - unfold createPaymentIntent. by repeat case_match.
  - unfold processRefund. by repeat case_match.
Qed.

(** C3. Starting from a store in which every stock quantity is at least
    zero (and the stored orders have the line quantities of at least one
    that the schema asks for), every stock quantity is still at least zero
    after any sequence of order placements and cancellations, and of the
    status and payment operations of the model. Of these operations only a
    cancellation changes a stock quantity; a quick-buy request changes
    none either. *)
Theorem stock_never_negative :
  ∀ db ops,
    stock_nonneg (products db) →
    orders_valid (orders db) →
    stock_nonneg (products (run db ops))
    ∧ (∀ op, isCancel op = false → products (step db op) = products db)
    ∧ (∀ req, snd (fst (quickBuy req (products db))) = products db).
Proof.
  intros db ops Hstock Horders. split; [|split].
  - by apply (run_preserves_inv ops db).
  - intros op. apply step_products.
  - intros req. apply quickBuy_inv.
Qed.

Lemma sampleDb_inv st : store_inv (sampleDb st).
Proof.
  split.
  - intros id p Hp. unfold sampleDb in Hp. cbn [products] in Hp.
    apply lookup_singleton_Some in Hp as [_ <-]. cbn. lia.
  - repeat constructor. cbn. lia.
Qed.

(** User 7 asks for an order to be placed and then cancels the confirmed
    sample order, whose two units come back. *)
Lemma stock_never_negative_witness :
  let ops := [OpCreateOrder 0 8%N true (mkCreateOrderRequest 7%N [] cod);
              OpCancelOrder 1 7%N 9%N None] in
  stock_nonneg (products (run (sampleDb confirmed) ops))
  ∧ stock_quantity <$> products (run (sampleDb confirmed) ops) !! 1%N = Some 5.
Proof.
  intros ops. split; [|reflexivity].
  apply stock_never_negative.
  - apply sampleDb_inv.
  - apply sampleDb_inv.
Defined.

(** ** Payment notifications *)

Lemma applyPaymentSuccess_hasIntent now intentId id o :
  hasIntent id (applyPaymentSuccess now intentId o) = hasIntent id o.
Proof.
  unfold applyPaymentSuccess.
  by destruct (bool_decide (orderStatus _ = pending)).
Qed.

Lemma applyPaymentSuccess_completed now intentId o :
  pd_status (paymentDetails (applyPaymentSuccess now intentId o)) = pay_completed.
Proof. unfold applyPaymentSuccess. by case_bool_decide. Qed.

Lemma handlePaymentSuccess_completed now intentId db order :
  findOne (hasIntent intentId) (orders db) = Some order →
  pd_status (paymentDetails order) = pay_completed →
  handlePaymentSuccess now intentId db = db.
Proof.
  intros Hfind Hst. unfold handlePaymentSuccess. rewrite Hfind.
  by rewrite (bool_decide_eq_true_2 _ Hst).
Qed.

(** The store after a notification that found an order not yet marked
    completed. *)
Lemma handlePaymentSuccess_applies now intentId db order :
  findOne (hasIntent intentId) (orders db) = Some order →
  pd_status (paymentDetails order) ≠ pay_completed →
  handlePaymentSuccess now intentId db
  = mkDb (products db) (carts db)
         (saveFound (hasIntent intentId) (applyPaymentSuccess now intentId order)
                    (orders db))
  ∧ findOne (hasIntent intentId) (orders (handlePaymentSuccess now intentId db))
    = Some (applyPaymentSuccess now intentId order).
Proof.
  intros Hfind Hst.
  assert (Heq : handlePaymentSuccess now intentId db
                = mkDb (products db) (carts db)
                    (saveFound (hasIntent intentId)
                       (applyPaymentSuccess now intentId order) (orders db))).
  { unfold handlePaymentSuccess. rewrite Hfind.
    by rewrite (bool_decide_eq_false_2 _ Hst). }
  split; [done|]. rewrite Heq. cbn [orders].
  destruct (findOne_split _ _ _ Hfind) as (pre & post & -> & Hpre & Ho).
  rewrite saveFound_app by done. apply findOne_app; [done|].
  by rewrite applyPaymentSuccess_hasIntent.
Qed.

(** C6. Delivering the same payment-succeeded notification a second time
    leaves the store exactly as the first delivery left it. A notification
    for an order already marked completed changes nothing, and the handler
    has no failing path. For a pending order not yet marked completed, the
    two deliveries together move the status to [confirmed] and append
    exactly one timeline entry, with status [confirmed]. *)
Theorem handlePaymentSuccess_idempotent :
  ∀ now1 now2 intentId db,
    handlePaymentSuccess now2 intentId (handlePaymentSuccess now1 intentId db)
    = handlePaymentSuccess now1 intentId db
    ∧ (∀ order,
         findOne (hasIntent intentId) (orders db) = Some order →
         pd_status (paymentDetails order) = pay_completed →
         handlePaymentSuccess now1 intentId db = db)
    ∧ (∀ order,
         findOne (hasIntent intentId) (orders db) = Some order →
         pd_status (paymentDetails order) ≠ pay_completed →
         orderStatus order = pending →
         ∃ order',
           findOne (hasIntent intentId)
             (orders (handlePaymentSuccess now2 intentId
                        (handlePaymentSuccess now1 intentId db)))
           = Some order'
           ∧ orderStatus order' = confirmed
           ∧ pd_status (paymentDetails order') = pay_completed
           ∧ timeline order'
             = timeline order
               ++ [mkTimelineEntry confirmed (Some "Payment completed via webhook")
                                   now1 None]).
Proof.
  intros now1 now2 intentId db.
  assert (Hidem : handlePaymentSuccess now2 intentId
                    (handlePaymentSuccess now1 intentId db)
                  = handlePaymentSuccess now1 intentId db).
  { destruct (findOne (hasIntent intentId) (orders db)) as [order|] eqn:Hfind.
    - destruct (decide (pd_status (paymentDetails order) = pay_completed))
        as [Hst|Hst].
      + by rewrite !(handlePaymentSuccess_completed _ _ _ _ Hfind Hst).
      + destruct (handlePaymentSuccess_applies now1 _ _ _ Hfind Hst) as [_ Hfind'].
        eapply handlePaymentSuccess_completed; [exact Hfind'|].
        apply applyPaymentSuccess_completed.
    - assert (Hno : ∀ now, handlePaymentSuccess now intentId db = db).
      { intros now. unfold handlePaymentSuccess. by rewrite Hfind. }
      by rewrite !Hno. }
  split; [done|]. split.
  - intros order. apply handlePaymentSuccess_completed.
  - intros order Hfind Hst Hpending. rewrite Hidem.
    destruct (handlePaymentSuccess_applies now1 _ _ _ Hfind Hst) as [_ ->].
    eexists. split; [done|].
    unfold applyPaymentSuccess. cbn [orderStatus set_paymentDetails].
    rewrite (bool_decide_eq_true_2 _ Hpending). by repeat split.
Qed.

(** The pending sample order is notified at times 5 and 6. *)
Lemma handlePaymentSuccess_idempotent_witness :
  handlePaymentSuccess 6 "pi_1" (handlePaymentSuccess 5 "pi_1" (sampleDb pending))
  = handlePaymentSuccess 5 "pi_1" (sampleDb pending)
  ∧ ∃ order',
      findOne (hasIntent "pi_1")
        (orders (handlePaymentSuccess 6 "pi_1"
                   (handlePaymentSuccess 5 "pi_1" (sampleDb pending))))
      = Some order'
      ∧ orderStatus order' = confirmed
      ∧ timeline order'
        = [mkTimelineEntry pending (Some "Order placed successfully") 0 (Some 7%N);
           mkTimelineEntry confirmed (Some "Payment completed via webhook") 5 None].
Proof.
  destruct (handlePaymentSuccess_idempotent 5 6 "pi_1" (sampleDb pending))
    as (Hidem & _ & Hpending).
  split; [exact Hidem|].
  destruct (Hpending (sampleOrder pending) eq_refl ltac:(discriminate) eq_refl)
    as (order' & Hfind & Hst & _ & Htl).
  exists order'. by repeat split.
Defined.



(** ** The timeline *)

#[local] Instance evolves_refl : Reflexive evolves.
Proof. intros o. split; [done|]. by intros []. Qed.

(** An order that got one more timeline entry, carrying its new status. *)
Lemma evolves_push o o' e :
  timeline o' = timeline o ++ [e] →
  tl_status e = orderStatus o' →
  evolves o o'.
Proof.
  intros Ht Hs. split.
  - rewrite Ht. by apply prefix_app_r.
  - intros _. unfold lastStatus. rewrite Ht, last_snoc. cbn. by rewrite Hs.
Qed.

(** An order whose timeline and status were left alone. *)
Lemma evolves_same o o' :
  timeline o' = timeline o → orderStatus o' = orderStatus o → evolves o o'.
Proof. intros Ht Hs. split; [by rewrite Ht|]. by intros []. Qed.

Lemma addTimelineEntry_evolves now status message updatedBy o :
  evolves o (snd (addTimelineEntry now status message updatedBy o)).
Proof. by eapply evolves_push. Qed.

Lemma updateStatus_evolves now newStatus message updatedBy o :
  evolves o (sc_document (updateStatus now newStatus message updatedBy o)).
Proof.
  unfold updateStatus. destruct (negb _); [reflexivity|].
  eapply evolves_push; by destruct newStatus.
Qed.

Lemma applyPaymentSuccess_evolves now intentId o :
  evolves o (applyPaymentSuccess now intentId o).
Proof.
  unfold applyPaymentSuccess.
  destruct (bool_decide (orderStatus _ = pending)).
  - by eapply evolves_push.
  - by apply evolves_same.
Qed.

Lemma applyPaymentFailure_evolves now message o :
  evolves o (applyPaymentFailure now message o).
Proof. by eapply evolves_push. Qed.

Lemma saveFound_evolves p o' l f :
  findOne p l = Some f →
  evolves f o' →
  Forall2 evolves l (saveFound p o' l).
Proof.
  intros (pre & post & -> & Hpre & Ho)%findOne_split Hev.
  rewrite saveFound_app by done.
  apply Forall2_app; [reflexivity|]. by constructor.
Qed.

(** A handler that at most writes back the order it found, evolved. *)
Ltac writes_back_evolved :=
  repeat case_match; cbn [snd orders]; try reflexivity;
  (eapply saveFound_evolves; [done|]);
  first [by eapply evolves_push | by apply evolves_same].

(** Every operation leaves the stored orders in place, each one evolved,
    and adds none. *)
Lemma step_orders_evolve db op :
  Forall2 evolves (orders db) (orders (step db op)).
Proof.
  destruct op; cbn [step].
  - by rewrite (proj2 (proj2 (createOrder_inv now newId pathsValid req db))).
  - unfold cancelOrder.
    destruct (findOne _ _) as [order|] eqn:Hfind; [|reflexivity].
    destruct (negb (bool_decide _)); [reflexivity|].
    destruct (negb (includes _ _)); [reflexivity|].
    cbn [snd orders]. eapply saveFound_evolves; [done|]. by eapply evolves_push.
  - unfold updateOrderStatus, settle.
    destruct (negb (bool_decide _)); [reflexivity|].
    destruct (findOne _ _) as [order|] eqn:Hfind; [|reflexivity].
    pose proof (updateStatus_evolves now (su_status req) (su_message req)
                  (Some (su_admin req)) order) as Hev.
    destruct (updateStatus _ _ _ _ _) as [[[]|e] order1 underWay];
      cbn [sc_outcome sc_document sc_saveUnderWay snd orders] in *.
    + eapply saveFound_evolves; [done|]. destruct Hev as [Hpre Hlast].
      split; by case_bool_decide.
    + destruct (underWay && lands); [|reflexivity].
      cbn [orders]. by eapply saveFound_evolves.
  - unfold confirmPayment. writes_back_evolved.
  - unfold handlePaymentSuccess.
    destruct (findOne _ _) as [order|] eqn:Hfind; [|reflexivity].
    destruct (negb (bool_decide _)); [|reflexivity].
    cbn [orders]. eapply saveFound_evolves; [done|].
    apply applyPaymentSuccess_evolves.
  - unfold handlePaymentFailed, handlePaymentFailure. writes_back_evolved.
  - unfold handlePaymentCanceled, handlePaymentFailure. writes_back_evolved.
  - unfold createPaymentIntent. writes_back_evolved.
  - unfold processRefund. writes_back_evolved.
Qed.

(** C8. No operation removes or changes a timeline entry of a stored
    order: after the operation the order is still stored at its place and
    its old timeline is a prefix of its new one; whenever the operation
    changed the order's status, the last timeline entry carries the new
    status. The same holds of the documents that the model methods
    [addTimelineEntry] and [updateStatus] leave. No operation adds an
    order: the placement handler never gets to append the initial [pending]
    entry, because [Order.create] has rejected its document before. *)
Theorem timeline_append_only :
  ∀ db op,
    length (orders (step db op)) = length (orders db)
    ∧ (∀ i o,
         orders db !! i = Some o →
         ∃ o', orders (step db op) !! i = Some o'
               ∧ timeline o `prefix_of` timeline o'
               ∧ (orderStatus o' ≠ orderStatus o →
                  lastStatus o' = Some (orderStatus o')))
    ∧ (∀ now status message updatedBy o,
         let o' := snd (addTimelineEntry now status message updatedBy o) in
         timeline o' = timeline o ++ [mkTimelineEntry status message now updatedBy]
         ∧ lastStatus o' = Some (orderStatus o'))
    ∧ (∀ now newStatus message updatedBy o,
         let o' := sc_document (updateStatus now newStatus message updatedBy o) in
         timeline o `prefix_of` timeline o'
         ∧ (orderStatus o' ≠ orderStatus o →
            lastStatus o' = Some (orderStatus o')))
    ∧ (∀ now newId pathsValid req,
         res_order (fst (createOrder now newId pathsValid req db)) = None
         ∧ orders (snd (createOrder now newId pathsValid req db)) = orders db)
    ∧ createOrder 0 9%N true (mkCreateOrderRequest 7%N [] cod)
        (shopDb [mkCartItem 1%N 2 1000])
      = (sendErrorResponse 500 "Error creating order",
         shopDb [mkCartItem 1%N 2 1000]).
Proof.
  intros db op. pose proof (step_orders_evolve db op) as Hev.
  split; [by rewrite (Forall2_length _ _ _ Hev)|].
  split; [|split; [|split; [|split]]].
  - intros i o Hi.
    destruct (Forall2_lookup_l _ _ _ _ _ Hev Hi) as (o' & Hi' & Ho').
    by exists o'.
  - intros now status message updatedBy o o'. subst o'. split; [done|].
    unfold lastStatus, addTimelineEntry. cbn. by rewrite last_snoc.
  - intros now newStatus message updatedBy o o'. subst o'.
    apply updateStatus_evolves.
  - intros now newId pathsValid req.
    destruct (createOrder_inv now newId pathsValid req db) as (_ & Hnone & ->).
    done.
  - by vm_compute.
Qed.

(** ** The stock flag *)

Lemma incQuantity_isInStock delta p :
  stock_isInStock (incQuantity delta p) = stock_isInStock p.
Proof. reflexivity. Qed.

(** The [save] hook gives the flag the value "quantity above zero". *)
Lemma Product_preSave_isInStock p :
  stock_isInStock (Product_preSave p) = (0 <? stock_quantity (Product_preSave p)).
Proof. reflexivity. Qed.

(** C9. The increments of cancellation change [stock.quantity] and never
    [stock.isInStock], which only the [save] hook of the product model
    sets: cancelling an order for two units of a sold-out product leaves
    quantity 2 with the flag still [false], so that the flag differs from
    "quantity above zero". *)
Theorem stock_flag_not_refreshed :
  (∀ orderItems ps id,
      stock_isInStock <$> restoreStock orderItems ps !! id
      = stock_isInStock <$> ps !! id)
  ∧ (∀ now reqUser orderId reason db id,
       stock_isInStock
         <$> products (snd (cancelOrder now reqUser orderId reason db)) !! id
       = stock_isInStock <$> products db !! id)
  ∧ (∀ p, stock_isInStock (Product_preSave p)
          = (0 <? stock_quantity (Product_preSave p)))
  ∧ (let db := mkDb {[ 1%N := mkProduct "Ganesh Idol" 1000 true 0 false ]} ∅
                    [sampleOrder confirmed] in
     let db' := snd (cancelOrder 5 7%N 9%N None db) in
     products db' !! 1%N = Some (mkProduct "Ganesh Idol" 1000 true 2 false)
     ∧ ∃ p, products db' !! 1%N = Some p
            ∧ stock_isInStock p ≠ (0 <? stock_quantity p)).
Proof.
  assert (Hrestore : ∀ orderItems ps id,
            stock_isInStock <$> restoreStock orderItems ps !! id
            = stock_isInStock <$> ps !! id).
  { intros orderItems ps id. rewrite restoreStock_lookup. by destruct (ps !! id). }
  split; [exact Hrestore|]. split; [|split].
  - intros now reqUser orderId reason db id. unfold cancelOrder.
    repeat case_match; cbn [snd products]; try done; apply Hrestore.
  - done.
  - split; [reflexivity|]. eexists. split; [reflexivity|]. by cbn.
Qed.

(** ** The pricing check of quick buy *)




(** * Further properties of the order routes *)

(** ** Placement is always refused *)

(** X1. POST /api/orders places no order. A valid request of a user whose
    cart is not empty and whose every line passes the loop (product stored,
    active, flagged in stock, stock at least the quantity) gets as far as
    [Order.create], whose rejection is answered 500 "Error creating order".
    Nothing is stored: the orders, the stock quantities and the cart are as
    before, so the same request gets the same answer again. *)
Theorem createOrder_passing_cart_rejected :
  ∀ now newId pathsValid req db cartItems,
    req_validationErrors req = [] →
    carts db !! req_user req = Some cartItems →
    cartItems ≠ [] →
    Forall (fun l => linePasses (products db) l = true) cartItems →
    let r := createOrder now newId pathsValid req db in
    r = (sendErrorResponse 500 "Error creating order", db)
    ∧ validateCartItems (products db) cartItems []
      = LoopDone true (orderItemOf (products db) <$> cartItems)
    ∧ (∀ now' newId' pathsValid',
         createOrder now' newId' pathsValid' req (snd r) = r).
Proof.
  intros now newId pathsValid req db cartItems Hv Hcart Hne Hpass r. subst r.
  rewrite (createOrder_all_pass _ _ _ _ _ _ Hv Hcart Hne Hpass).
  split; [done|]. split; [by rewrite validateCartItems_all_pass|].
  intros now' newId' pathsValid'. cbn [snd].
  by apply createOrder_all_pass with cartItems.
Qed.

(** User 7 asks for two of the three units of product 1. *)
Lemma createOrder_passing_cart_rejected_witness :
  createOrder 0 9%N true (mkCreateOrderRequest 7%N [] cod)
              (shopDb [mkCartItem 1%N 2 1000])
  = (sendErrorResponse 500 "Error creating order", shopDb [mkCartItem 1%N 2 1000]).
Proof.
  apply (createOrder_passing_cart_rejected 0 9%N true
           (mkCreateOrderRequest 7%N [] cod) (shopDb [mkCartItem 1%N 2 1000])
           [mkCartItem 1%N 2 1000]).
  - reflexivity.
  - reflexivity.
  - discriminate.
  - repeat constructor.
Defined.

(** ** The admin status route *)

(** X4. PUT /api/orders/:id/status on a stored order never answers with a
    success. A target that the transition table does not allow is answered
    400 with the message of [updateStatus], and the store is left as it
    was. A target that the table allows is answered 400 with the message of
    the ParallelSaveError; the tracking number and the carrier of the
    request are not assigned. The save that [addTimelineEntry] started is
    then still under way: if its write lands, the stored order has the
    target status, one more timeline entry and the matching stamp
    ([shippedAt], [deliveredAt], or [cancelledAt] with the admin as
    [cancelledBy]), with its lines untouched. The route never writes
    products or carts: an order cancelled here gets no stock back. *)
Theorem updateOrderStatus_route :
  ∀ now lands orderId req db order,
    su_validationErrors req = [] →
    findOne (hasId orderId) (orders db) = Some order →
    let r := updateOrderStatus now lands orderId req db in
    res_status (fst r) = 400
    ∧ res_success (fst r) = false
    ∧ (Transition (orderStatus order) (su_status req) →
       res_message (fst r) = err_message (ParallelSaveError order)
       ∧ ∃ order',
           orders (snd r)
           = (if lands then saveFound (hasId orderId) order' (orders db)
              else orders db)
           ∧ orderStatus order' = su_status req
           ∧ timeline order'
             = timeline order
               ++ [mkTimelineEntry (su_status req) (su_message req) now
                                   (Some (su_admin req))]
           ∧ items order' = items order
           ∧ tr_trackingNumber (tracking order')
             = tr_trackingNumber (tracking order)
           ∧ tr_carrier (tracking order') = tr_carrier (tracking order)
           ∧ (su_status req = shipped → tr_shippedAt (tracking order') = Some now)
           ∧ (su_status req = delivered →
              tr_deliveredAt (tracking order') = Some now)
           ∧ (su_status req = cancelled →
              cn_cancelledAt (cancellation order') = Some now
              ∧ cn_cancelledBy (cancellation order') = Some (su_admin req)))
    ∧ (¬ Transition (orderStatus order) (su_status req) →
       r = (sendErrorResponse 400
              ("Cannot transition from " +:+ status_name (orderStatus order)
               +:+ " to " +:+ status_name (su_status req)), db))
    ∧ products (snd r) = products db
    ∧ carts (snd r) = carts db.
Proof.
  intros now lands orderId req db order Hv Hfind r. subst r.
  unfold updateOrderStatus, updateStatus, settle.
  rewrite (bool_decide_eq_true_2 _ Hv), Hfind. cbn [negb].
  destruct (includes (statusTransitions (orderStatus order)) (su_status req))
    eqn:Ht; cbn [negb addTimelineEntry save sc_outcome sc_document
                 sc_saveUnderWay fst snd andb].
  - split; [done|]. split; [done|]. split.
    + intros _. split.
      { apply (f_equal err_message), ParallelSaveError_id.
        by destruct (su_status req). }
      eexists. split; [by destruct lands|]. by destruct (su_status req).
    + split.
      * intros Hn. by apply statusTransitions_not_Transition in Hn; congruence.
      * by destruct lands.
  - split; [done|]. split; [done|]. split.
    + intros Hy%statusTransitions_Transition. congruence.
    + by repeat split.
Qed.

(** An admin cancels the processing sample order: the answer is the
    error of the second save, the order is stored cancelled and stamped
    once the first save has landed, and product 1 keeps its three units. *)
Lemma updateOrderStatus_route_witness :
  let req := mkStatusUpdateRequest 2%N [] cancelled None None None in
  let r := updateOrderStatus 5 true 9%N req (sampleDb processing) in
  fst r
  = sendErrorResponse 400
      "Can't save() the same doc multiple times in parallel. Document: 000000000000000000000009"
  ∧ products (snd r) = products (sampleDb processing)
  ∧ ∃ order',
      orders (snd r) = [order']
      ∧ orderStatus order' = cancelled
      ∧ cn_cancelledBy (cancellation order') = Some 2%N.
Proof.
  intros req r.
  destruct (updateOrderStatus_route 5 true 9%N req (sampleDb processing)
              (sampleOrder processing) eq_refl eq_refl)
    as (_ & _ & Hok & _ & Hps & _).
  destruct (Hok ltac:(constructor))
    as (_ & order' & Ho & Hst & _ & _ & _ & _ & _ & _ & Hc).
  split; [reflexivity|]. split; [exact Hps|].
  exists order'. split; [|split; [exact Hst|by destruct (Hc eq_refl)]].
  subst r. rewrite Ho. reflexivity.
Defined.

(** ** The lifecycle only moves forward *)

Lemma Transition_rank s t : Transition s t → (statusRank s < statusRank t)%nat.
Proof. destruct 1; cbn; lia. Qed.

(** X5. Calls of [updateStatus] on a document, whatever they throw, only
    move it forward in the lifecycle: every call that the transition table
    lets through raises the rank of the status and adds exactly one
    timeline entry, every other call leaves the document as it was. So at
    most six calls are let through (fewer the further along the document
    already was), and once one is, the document never has the status it
    started from again. *)
Theorem updateStatus_moves_forward :
  ∀ calls o,
    let o' := updateStatuses calls o in
    (statusRank (orderStatus o) + accepted calls o
     ≤ statusRank (orderStatus o'))%nat
    ∧ (statusRank (orderStatus o) + accepted calls o ≤ 6)%nat
    ∧ length (timeline o') = (length (timeline o) + accepted calls o)%nat
    ∧ (accepted calls o ≠ 0%nat → orderStatus o' ≠ orderStatus o)
    ∧ (accepted calls o = 0%nat → o' = o)
    ∧ (let calls6 := [(1, confirmed, None, None); (2, pending, None, None);
                      (3, processing, None, None); (4, shipped, None, None);
                      (5, out_for_delivery, None, None);
                      (6, delivered, None, None); (7, returned, None, None)] in
       accepted calls6 (sampleOrder pending) = 6%nat
       ∧ orderStatus (updateStatuses calls6 (sampleOrder pending)) = returned).
Proof.
  assert (Hmax : ∀ s, (statusRank s ≤ 6)%nat) by (intros []; cbn; lia).
  assert (Hmain : ∀ calls o,
            (statusRank (orderStatus o) + accepted calls o
             ≤ statusRank (orderStatus (updateStatuses calls o)))%nat
            ∧ length (timeline (updateStatuses calls o))
              = (length (timeline o) + accepted calls o)%nat
            ∧ (accepted calls o = 0%nat → updateStatuses calls o = o)).
  { induction calls as [|[[[now newStatus] message] updatedBy] rest IH];
      intros o; cbn [updateStatuses accepted]; [by repeat split; lia|].
    destruct (includes (statusTransitions (orderStatus o)) newStatus) eqn:Hi.
    - destruct (updateStatus_allowed now newStatus message updatedBy o Hi)
        as (_ & _ & _ & Hs & Htl & _).
      apply statusTransitions_Transition, Transition_rank in Hi.
      destruct (IH (sc_document (updateStatus now newStatus message updatedBy o)))
        as (Hrank & Hlen & _).
      rewrite Hs in Hrank. rewrite Hlen, Htl, length_app. cbn [length].
      split; [lia|]. split; [lia|]. intros ?. exfalso. lia.
    - rewrite (updateStatus_refused _ _ _ _ _ Hi). cbn [sc_document].
      destruct (IH o) as (Hrank & Hlen & Hsame).
      split; [lia|]. split; [lia|]. intros ?. apply Hsame. lia. }
  intros calls o o'. subst o'.
  destruct (Hmain calls o) as (Hrank & Hlen & Hsame).
  pose proof (Hmax (orderStatus (updateStatuses calls o))) as Hle.
  split; [done|]. split; [lia|]. split; [done|]. split; [|split; [done|]].
  - intros Hne Heq. rewrite Heq in Hrank. lia.
  - by vm_compute.
Qed.

(** ** The payment routes *)

(** X6. POST /api/payment/confirm with a succeeded intent is not guarded
    by the order's status or payment status: whatever they were, the order
    ends in [confirmed] with the payment completed and one more
    [confirmed] timeline entry. A second call appends a second entry. *)
Theorem confirmPayment_unguarded :
  ∀ now1 now2 reqUser intentId db order,
    findOne (intentOfUser intentId reqUser) (orders db) = Some order →
    let r1 := confirmPayment now1 reqUser intentId succeeded db in
    let r2 := confirmPayment now2 reqUser intentId succeeded (snd r1) in
    let entry now :=
      mkTimelineEntry confirmed (Some "Payment completed successfully") now
                      (Some reqUser) in
    (∃ o1,
        findOne (intentOfUser intentId reqUser) (orders (snd r1)) = Some o1
        ∧ res_order (fst r1) = Some o1
        ∧ orderStatus o1 = confirmed
        ∧ pd_status (paymentDetails o1) = pay_completed
        ∧ timeline o1 = timeline order ++ [entry now1])
    ∧ (∃ o2,
        findOne (intentOfUser intentId reqUser) (orders (snd r2)) = Some o2
        ∧ orderStatus o2 = confirmed
        ∧ timeline o2 = timeline order ++ [entry now1; entry now2]).
Proof.
  intros now1 now2 reqUser intentId db order Hfind r1 r2 entry.
  destruct (findOne_split _ _ _ Hfind) as (pre & post & Hl & Hpre & Ho).
  assert (Hkeep : ∀ now (o : Order),
            intentOfUser intentId reqUser o = true →
            intentOfUser intentId reqUser
              (timeline_push (entry now)
                 (set_orderStatus confirmed
                    (set_paymentDetails (markPaid now intentId (paymentDetails o)) o)))
            = true) by done.
  assert (H1 : r1 = (sendSuccessResponse 200 "Payment confirmed successfully"
                       (Some (timeline_push (entry now1)
                                (set_orderStatus confirmed
                                   (set_paymentDetails
                                      (markPaid now1 intentId (paymentDetails order))
                                      order)))),
                     mkDb (products db) (carts db)
                          (pre ++ timeline_push (entry now1)
                                    (set_orderStatus confirmed
                                       (set_paymentDetails
                                          (markPaid now1 intentId (paymentDetails order))
                                          order)) :: post))).
  { subst r1. unfold confirmPayment. fold (intentOfUser intentId reqUser).
    rewrite Hfind, Hl. by rewrite saveFound_app. }
  set (o1 := timeline_push (entry now1) _) in H1.
  assert (Hf1 : findOne (intentOfUser intentId reqUser) (orders (snd r1)) = Some o1).
  { rewrite H1. cbn [snd orders]. apply findOne_app; [done|]. by apply Hkeep. }
  split.
  - exists o1. split; [done|]. rewrite H1. by repeat split.
  - subst r2. unfold confirmPayment. fold (intentOfUser intentId reqUser).
    rewrite Hf1. cbn [snd orders]. eexists. split.
    { rewrite H1. cbn [snd orders]. rewrite saveFound_app; [|done|by apply Hkeep].
      apply findOne_app; [done|]. by apply Hkeep. }
    split; [done|]. subst o1. cbn. by rewrite <- app_assoc.
Qed.

(** The shipped sample order is "confirmed" again by its owner. *)
Lemma confirmPayment_unguarded_witness :
  ∃ o1,
    findOne (intentOfUser "pi_1" 7%N)
      (orders (snd (confirmPayment 5 7%N "pi_1" succeeded (sampleDb shipped))))
    = Some o1
    ∧ orderStatus o1 = confirmed.
Proof.
  destruct (confirmPayment_unguarded 5 6 7%N "pi_1" (sampleDb shipped)
              (sampleOrder shipped) eq_refl) as [(o1 & Hf & _ & Hs & _) _].
  by exists o1.
Defined.

(** What the create-intent route can do to a stored order: nothing, or
    store an intent id. *)
Lemma createPaymentIntent_orders reqUser orderId validationErrors existingIntent
    created db :
  orders (snd (createPaymentIntent reqUser orderId validationErrors
                 existingIntent created db)) = orders db
  ∨ ∃ order intentId,
      created = ProviderOk intentId
      ∧ validationErrors = []
      ∧ findOne (hasId orderId) (orders db) = Some order
      ∧ user order = reqUser
      ∧ orderStatus order = pending
      ∧ orders (snd (createPaymentIntent reqUser orderId validationErrors
                       existingIntent created db))
        = saveFound (hasId orderId)
            (set_paymentDetails
               (set_pd_paymentIntentId intentId (paymentDetails order)) order)
            (orders db).
Proof.
  unfold createPaymentIntent.
  destruct (bool_decide (validationErrors = [])) eqn:Hv; cbn [negb]; [|by left].
  apply bool_decide_eq_true in Hv.
  destruct (findOne _ _) as [order|] eqn:Hfind; [|by left].
  destruct (bool_decide (user order = reqUser)) eqn:Hu; cbn [negb]; [|by left].
  apply bool_decide_eq_true in Hu.
  destruct (bool_decide (orderStatus order = pending)) eqn:Hp; cbn [negb]; [|by left].
  apply bool_decide_eq_true in Hp.
  destruct created as [intentId|message|].
  - repeat case_match; try (by left); right; by exists order, intentId.
  - left. by repeat case_match.
  - left. by repeat case_match.
Qed.

(** X7. POST /api/payment/create-intent changes at most one thing in the
    store: the [paymentIntentId] of the order it was called for, and only
    when the request is valid, the order belongs to the requester and is
    still [pending]. Statuses, timelines, lines, products and carts are
    never written. *)
Theorem createPaymentIntent_frame :
  ∀ reqUser orderId validationErrors existingIntent created db,
    let r := createPaymentIntent reqUser orderId validationErrors
               existingIntent created db in
    products (snd r) = products db
    ∧ carts (snd r) = carts db
    ∧ Forall2 (fun o o' =>
                 o' = o
                 ∨ (∃ intentId,
                       o' = set_paymentDetails
                              (set_pd_paymentIntentId intentId (paymentDetails o)) o)
                   ∧ _id o = orderId ∧ user o = reqUser
                   ∧ orderStatus o = pending ∧ validationErrors = [])
              (orders db) (orders (snd r)).
Proof.
  intros reqUser orderId validationErrors existingIntent created db r. subst r.
  split; [|split].
  - unfold createPaymentIntent. by repeat case_match.
  - unfold createPaymentIntent. by repeat case_match.
  - destruct (createPaymentIntent_orders reqUser orderId validationErrors
                existingIntent created db) as
      [->|(order & intentId & _ & Hv & Hfind & Hu & Hp & ->)].
    + apply Forall_Forall2_diag, Forall_forall. by left.
    + destruct (findOne_split _ _ _ Hfind) as (pre & post & -> & Hpre & Ho).
      rewrite saveFound_app by done.
      apply Forall2_app; [apply Forall_Forall2_diag, Forall_forall; by left|].
      constructor; [|apply Forall_Forall2_diag, Forall_forall; by left].
      right. apply bool_decide_eq_true in Ho. split; [by eexists|done].
Qed.

(** X8. Intent and notification fit together: after create-intent stored
    a new intent id on a pending, unpaid order, the provider's
    payment-succeeded notification for that id finds this order and
    confirms it: status [confirmed], payment completed with the intent id as
    transaction id, one [confirmed] timeline entry added. *)
Theorem createPaymentIntent_then_handlePaymentSuccess :
  ∀ now reqUser orderId existingIntent intentId db order,
    findOne (hasId orderId) (orders db) = Some order →
    user order = reqUser →
    orderStatus order = pending →
    pd_paymentIntentId (paymentDetails order) = None →
    pd_status (paymentDetails order) ≠ pay_completed →
    Forall (fun o => hasIntent intentId o = false) (orders db) →
    let db1 := snd (createPaymentIntent reqUser orderId [] existingIntent
                      (ProviderOk intentId) db) in
    let db2 := handlePaymentSuccess now intentId db1 in
    ∃ order',
      findOne (hasId orderId) (orders db2) = Some order'
      ∧ orderStatus order' = confirmed
      ∧ pd_status (paymentDetails order') = pay_completed
      ∧ pd_transactionId (paymentDetails order') = Some intentId
      ∧ pd_paymentIntentId (paymentDetails order') = Some intentId
      ∧ timeline order'
        = timeline order
          ++ [mkTimelineEntry confirmed (Some "Payment completed via webhook")
                              now None]
      ∧ items order' = items order.
Proof.
  intros now reqUser orderId existingIntent intentId db order
    Hfind Hu Hp Hnone Hst Hfresh db1 db2.
  destruct (findOne_split _ _ _ Hfind) as (pre & post & Hl & Hpre & Ho).
  set (order1 := set_paymentDetails
                   (set_pd_paymentIntentId intentId (paymentDetails order)) order).
  assert (H1 : orders db1 = pre ++ order1 :: post).
  { subst db1. unfold createPaymentIntent. rewrite Hfind.
    rewrite (bool_decide_eq_true_2 _ Hu), (bool_decide_eq_true_2 _ Hp), Hnone.
    cbn [negb bool_decide decide_rel snd orders].
    rewrite Hl. by rewrite saveFound_app. }
  assert (Hpre' : Forall (fun o => hasIntent intentId o = false) pre).
  { rewrite Hl in Hfresh. by apply Forall_app in Hfresh as [? _]. }
  assert (Hi1 : hasIntent intentId order1 = true) by by apply bool_decide_eq_true.
  assert (Hf1 : findOne (hasIntent intentId) (orders db1) = Some order1).
  { rewrite H1. by apply findOne_app. }
  destruct (handlePaymentSuccess_applies now intentId db1 order1 Hf1 Hst) as [Heq _].
  subst db2. rewrite Heq. cbn [orders]. rewrite H1, saveFound_app by done.
  eexists. split.
  { apply findOne_app; [done|]. unfold hasId in *.
    unfold applyPaymentSuccess.
    by destruct (bool_decide (orderStatus _ = pending)). }
  unfold applyPaymentSuccess. cbn [orderStatus set_paymentDetails order1].
  rewrite (bool_decide_eq_true_2 _ Hp). by repeat split.
Qed.

(** An order placed with an empty payment sub-document gets the intent
    "pi_7" and is confirmed by the notification for it. *)
Lemma createPaymentIntent_then_handlePaymentSuccess_witness :
  let order := set_paymentDetails
                 (mkPaymentDetails stripe None None pay_pending None 0 None)
                 (sampleOrder pending) in
  let db := mkDb ∅ ∅ [order] in
  ∃ order',
    findOne (hasId 9%N)
      (orders (handlePaymentSuccess 5 "pi_7"
                 (snd (createPaymentIntent 7%N 9%N [] None (ProviderOk "pi_7") db))))
    = Some order'
    ∧ orderStatus order' = confirmed
    ∧ pd_status (paymentDetails order') = pay_completed.
Proof.
  intros order db.
  destruct (createPaymentIntent_then_handlePaymentSuccess 5 7%N 9%N None "pi_7"
              db order eq_refl eq_refl eq_refl eq_refl ltac:(discriminate)
              ltac:(by repeat constructor))
    as (order' & Hf & Hs & Hc & _).
  by exists order'.
Defined.

(** ** Refunds *)

(** X9. POST /api/payment/refund on a completed, non-COD payment, asked
    by an admin or the owner, with the provider accepting: the amount (the
    order total when none is given) is added to [refundAmount], the payment
    becomes [refunded] when the amount is at least the order total and
    [partially_refunded] below it, the order status stays, and one timeline
    entry with the current status is added. Right after that the payment
    is not [completed], so a further refund request for the order is
    refused with "Cannot refund unpaid order". The refusal does not last:
    what a payment-succeeded notification does to the order it finds marks
    the payment [completed] again. *)
Theorem processRefund_effect :
  ∀ now shownAmount req db order,
    rf_validationErrors req = [] →
    findOne (hasId (rf_orderId req)) (orders db) = Some order →
    rf_isAdmin req = true ∨ user order = rf_user req →
    pd_status (paymentDetails order) = pay_completed →
    pd_method (paymentDetails order) ≠ cod →
    let r := processRefund now shownAmount (ProviderOk tt) req db in
    let refundAmount := refundAmountOf (rf_amount req) order in
    (∃ order',
        findOne (hasId (rf_orderId req)) (orders (snd r)) = Some order'
        ∧ res_order (fst r) = Some order'
        ∧ orderStatus order' = orderStatus order
        ∧ pd_refundAmount (paymentDetails order')
          = Number_add (pd_refundAmount (paymentDetails order)) refundAmount
        ∧ pd_status (paymentDetails order')
          = (if Number_geb refundAmount (total (orderSummary order))
             then pay_refunded else pay_partially_refunded)
        ∧ lastStatus order' = Some (orderStatus order)
        ∧ length (timeline order') = S (length (timeline order))
        ∧ (∀ now' intentId,
             pd_status (paymentDetails (applyPaymentSuccess now' intentId order'))
             = pay_completed
             ∧ pd_method (paymentDetails (applyPaymentSuccess now' intentId order'))
               = pd_method (paymentDetails order)))
    ∧ products (snd r) = products db
    ∧ (∀ now' shownAmount' refund' req',
         rf_orderId req' = rf_orderId req →
         rf_validationErrors req' = [] →
         rf_isAdmin req' = true ∨ user order = rf_user req' →
         processRefund now' shownAmount' refund' req' (snd r)
         = (sendErrorResponse 400 "Cannot refund unpaid order", snd r)).
Proof.
  intros now shownAmount req db order Hv Hfind Hacc Hst Hm r refundAmount.
  destruct (findOne_split _ _ _ Hfind) as (pre & post & Hl & Hpre & Ho).
  assert (Hguard : ∀ (rq : RefundRequest) (o : Order),
            user o = user order →
            rf_isAdmin rq = true ∨ user order = rf_user rq →
            negb (rf_isAdmin rq) && negb (bool_decide (user o = rf_user rq)) = false).
  { intros rq o Huo [->| Hu]; [done|].
    rewrite bool_decide_eq_true_2 by congruence. apply andb_false_r. }
  set (pd := paymentDetails order) in *.
  set (reason := or_default (rf_reason req) "Customer request").
  set (order' :=
         timeline_push
           (mkTimelineEntry (orderStatus order)
              (Some ("Refund of ₹" +:+ shownAmount +:+ " processed. Reason: "
                     +:+ reason))
              now (Some (rf_user req)))
           (set_paymentDetails
              (mkPaymentDetails (pd_method pd) (pd_transactionId pd)
                 (pd_paymentIntentId pd)
                 (if Number_geb refundAmount (total (orderSummary order))
                  then pay_refunded else pay_partially_refunded)
                 (pd_paidAt pd) (Number_add (pd_refundAmount pd) refundAmount)
                 (Some reason)) order)).
  assert (Hr : r = (sendSuccessResponse 200 "Refund processed successfully"
                      (Some order'),
                    mkDb (products db) (carts db)
                         (saveFound (hasId (rf_orderId req)) order' (orders db)))).
  { subst r. unfold processRefund.
    rewrite (bool_decide_eq_true_2 _ Hv), Hfind. cbn [negb].
    rewrite (Hguard req order eq_refl Hacc).
    fold pd. rewrite (bool_decide_eq_true_2 _ Hst). cbn [negb].
    by rewrite (bool_decide_eq_false_2 _ Hm). }
  rewrite Hr. cbn [fst snd orders products res_order sendSuccessResponse].
  assert (Hf' : findOne (hasId (rf_orderId req))
                  (saveFound (hasId (rf_orderId req)) order' (orders db))
                = Some order').
  { rewrite Hl, saveFound_app by done. by apply findOne_app. }
  split; [|split; [done|]].
  - exists order'. split; [done|]. split; [done|]. split; [done|].
    split; [done|]. split; [done|]. split; [|split].
    + unfold lastStatus. subst order'. cbn. by rewrite last_snoc.
    + subst order'. cbn. rewrite length_app. cbn. lia.
    + intros now' intentId. unfold applyPaymentSuccess.
      by destruct (bool_decide (orderStatus _ = pending)).
  - intros now' shownAmount' refund' req' Hid Hv' Hacc'.
    unfold processRefund. cbn [orders].
    rewrite (bool_decide_eq_true_2 _ Hv'), Hid, Hf'. cbn [negb].
    rewrite (Hguard req' order' eq_refl Hacc').
    assert (Hne : pd_status (paymentDetails order') ≠ pay_completed).
    { subst order'. cbn. by destruct (Number_geb _ _). }
    by rewrite (bool_decide_eq_false_2 _ Hne).
Qed.

(** A paid order of 2360 is refunded in full by an admin and a second
    request is refused; after the notification of the payment has been
    delivered once more, the order is refunded a second time. *)
Lemma processRefund_effect_witness :
  let order := set_paymentDetails
                 (mkPaymentDetails stripe (Some "pi_1") (Some "pi_1")
                                   pay_completed (Some 3) 0 None)
                 (sampleOrder delivered) in
  let db := mkDb ∅ ∅ [order] in
  let req := mkRefundRequest 2%N true [] 9%N None None in
  let r := processRefund 5 "2360" (ProviderOk tt) req db in
  (∃ order',
      res_order (fst r) = Some order'
      ∧ pd_status (paymentDetails order') = pay_refunded
      ∧ orderStatus order' = delivered)
  ∧ fst (processRefund 6 "2360" (ProviderOk tt) req (snd r))
    = sendErrorResponse 400 "Cannot refund unpaid order"
  ∧ (∃ order'',
       res_order (fst (processRefund 8 "2360" (ProviderOk tt) req
                         (handlePaymentSuccess 7 "pi_1" (snd r))))
       = Some order''
       ∧ pd_refundAmount (paymentDetails order'') = 4720%Q).
Proof.
  intros order db req r.
  destruct (processRefund_effect 5 "2360" req db order eq_refl eq_refl
              (or_introl eq_refl) eq_refl ltac:(discriminate))
    as ((order' & _ & Hres & Hs & _ & Hpd & _) & _ & Hagain).
  split; [|split].
  - exists order'. split; [exact Hres|]. split; [exact Hpd|exact Hs].
  - subst r. rewrite (Hagain 6 "2360" (ProviderOk tt) req eq_refl eq_refl
                        (or_introl eq_refl)). reflexivity.
  - eexists. split; by vm_compute.
Defined.

(** ** Quick buy is always refused *)

(** X10. POST /api/orders/quick-buy sells nothing: whatever the request,
    the answer is not a success, no order is created and every stock
    quantity and stock flag is as before. A valid request for a stored
    product that is flagged in stock with at least the requested quantity,
    with amounts that pass the pricing check, gets as far as
    [Order.create], which rejects the document (it has no [user] and no
    [orderSummary]), and is answered 500. *)
Theorem quickBuy_never_sells :
  ∀ req ps,
    let r := quickBuy req ps in
    res_success (fst (fst r)) = false
    ∧ snd (fst r) = ps
    ∧ snd r = None
    ∧ (∀ productData,
         qb_validationErrors req = [] →
         ps !! qb_productId req = Some productData →
         stock_isInStock productData = true →
         qb_quantity req ≤ stock_quantity productData →
         pricingMismatch req productData = false →
         fst (fst r) = sendErrorResponse 500 "Error placing quick buy order")
    ∧ (let ps0 : gmap ObjectId Product :=
         {[ 1%N := mkProduct "Ganesh Idol" 1000 true 3 true ]} in
       quickBuy (mkQuickBuyRequest [] 1%N 3 qb_cod 3000 199 3199) ps0
       = (sendErrorResponse 500 "Error placing quick buy order", ps0, None)).
Proof.
  intros req ps r. subst r.
  destruct (quickBuy_inv req ps) as (H1 & H2 & H3).
  split; [done|]. split; [done|]. split; [done|]. split; [|by vm_compute].
  intros productData Hv Hp Hflag Hq Hm. unfold quickBuy.
  rewrite (bool_decide_eq_true_2 _ Hv), Hp, Hflag, Hm. cbn [negb orb].
  by rewrite (proj2 (Z.ltb_ge _ _) Hq).
Qed.

(** ** Pagination *)

Lemma Math_ceil_div t i :
  0 < i →
  (Math_ceil (inject_Z t / inject_Z i) - 1) * i < t
  ∧ t ≤ Math_ceil (inject_Z t / inject_Z i) * i.
Proof.
  intros Hi. unfold Math_ceil.
  set (x := (inject_Z t / inject_Z i)%Q).
  assert (HI : (0 < inject_Z i)%Q).
  { change 0%Q with (inject_Z 0). by rewrite <- Zlt_Qlt. }
  assert (Hx : (x * inject_Z i == inject_Z t)%Q).
  { subst x. field. intros H0. rewrite H0 in HI. by apply Qlt_irrefl in HI. }
  pose proof (Qle_ceiling x) as Hle.
  pose proof (Qceiling_lt x) as Hlt.
  split.
  - rewrite Zlt_Qlt, inject_Z_mult, <- Hx.
    by apply Qmult_lt_compat_r.
  - rewrite Zle_Qle, inject_Z_mult, <- Hx.
    apply Qmult_le_compat_r; [done|]. by apply Qlt_le_weak.
Qed.

(** X11. [getPaginationData] with a page of at least 1 and a positive page
    size, over [total] items: the page count is the least number of pages
    that hold all items, the offset is never negative, [hasNextPage] says
    exactly whether items remain behind this page, [hasPrevPage] whether
    the offset is above zero, a page within the page count is never
    empty, and [nextPage] and [prevPage] are the neighbouring page numbers
    exactly when those flags are set. *)
Theorem getPaginationData_pages :
  ∀ page limit total,
    0 ≤ total →
    1 ≤ number_or page 1 →
    0 < number_or limit 10 →
    let p := getPaginationData page limit total in
    (totalPages p - 1) * itemsPerPage p < total ≤ totalPages p * itemsPerPage p
    ∧ (totalPages p = 0 ↔ total = 0)
    ∧ skip p = (currentPage p - 1) * itemsPerPage p
    ∧ 0 ≤ skip p
    ∧ (hasNextPage p = true ↔ skip p + itemsPerPage p < total)
    ∧ (hasPrevPage p = true ↔ 0 < skip p)
    ∧ (currentPage p ≤ totalPages p → skip p < total)
    ∧ nextPage p = (if hasNextPage p then Some (currentPage p + 1) else None)
    ∧ prevPage p = (if hasPrevPage p then Some (currentPage p - 1) else None).
Proof.
  intros page limit total Ht Hp Hl p. subst p. unfold getPaginationData.
  cbn [totalPages itemsPerPage skip currentPage hasNextPage hasPrevPage
       nextPage prevPage].
  set (cur := number_or page 1) in *. set (ipp := number_or limit 10) in *.
  destruct (Math_ceil_div total ipp Hl) as [Hlo Hhi].
  set (tp := Math_ceil _) in *.
  split; [done|]. split; [split; intros; nia|]. split; [done|].
  split; [nia|]. split.
  { rewrite Z.ltb_lt. split; intros; nia. }
  split.
  { rewrite Z.ltb_lt. split; intros; nia. }
  split; [intros; nia|]. done.
Qed.

(** 25 items, 10 to a page: page 3 is the last one and holds items from
    offset 20. *)
Lemma getPaginationData_pages_witness :
  let p := getPaginationData (Some 3) (Some 10) 25 in
  totalPages p = 3 ∧ skip p = 20 ∧ hasNextPage p = false
  ∧ prevPage p = Some 2 ∧ skip p < 25.
Proof.
  intros p.
  destruct (getPaginationData_pages (Some 3) (Some 10) 25)
    as (_ & _ & _ & _ & _ & _ & Hin & _); [lia|cbn; lia|cbn; lia|].
  split; [reflexivity|]. split; [reflexivity|]. split; [reflexivity|].
  split; [reflexivity|]. apply Hin. by vm_compute.
Defined.

(** X12. What [getPaginationData] does with values it cannot use: a page
    or page size that parses to NaN or to 0 is replaced by 1 and 10, so the
    page size is never 0; negative values are taken as they are, so that a
    negative page size gives a page count of at most 0 with no next page,
    and a page below 1 gives a negative offset. *)
Theorem getPaginationData_fallbacks :
  ∀ page limit total,
    let p := getPaginationData page limit total in
    itemsPerPage p ≠ 0
    ∧ currentPage p ≠ 0
    ∧ (page = None ∨ page = Some 0 → currentPage p = 1)
    ∧ (limit = None ∨ limit = Some 0 → itemsPerPage p = 10)
    ∧ (∀ l, limit = Some l → l < 0 → 0 ≤ total →
         itemsPerPage p = l ∧ totalPages p ≤ 0
         ∧ (1 ≤ currentPage p → hasNextPage p = false))
    ∧ (∀ z, page = Some z → z < 0 → 0 < itemsPerPage p → skip p < 0).
Proof.
  intros page limit total p. subst p. unfold getPaginationData.
  cbn [totalPages itemsPerPage skip currentPage hasNextPage].
  split; [by destruct limit as [[]|]|]. split; [by destruct page as [[]|]|].
  split; [by intros [-> | ->]|]. split; [by intros [-> | ->]|]. split.
  - intros l -> Hl Ht. assert (Hn : number_or (Some l) 10 = l) by by destruct l.
    rewrite Hn. split; [done|].
    assert (Htp : Math_ceil (inject_Z total / inject_Z l) ≤ 0).
    { unfold Math_ceil. change 0 with (Qceiling 0). apply Qceiling_resp_le.
      assert (HL : (inject_Z l < 0)%Q).
      { change 0%Q with (inject_Z 0). by rewrite <- Zlt_Qlt. }
      assert (HT : (0 <= inject_Z total)%Q).
      { change 0%Q with (inject_Z 0). by rewrite <- Zle_Qle. }
      set (x := (inject_Z total / inject_Z l)%Q).
      assert (Hx : (x * inject_Z l == inject_Z total)%Q).
      { subst x. field. intros H0. rewrite H0 in HL. by apply Qlt_irrefl in HL. }
      destruct (Qlt_le_dec 0 x) as [Hpos|Hneg]; [|done].
      exfalso. nra. }
    split; [done|]. intros Hc. apply Z.ltb_ge. lia.
  - intros z -> Hz Hi. assert (Hn : number_or (Some z) 1 = z) by by destruct z.
    rewrite Hn. nia.
Qed.

(** ** Product prices and ratings *)



Lemma sum_ratings_bounds (reviews : list Review) acc :
  Forall (fun r => 1 ≤ rv_rating r ≤ 5) reviews →
  acc + Z.of_nat (length reviews)
  ≤ fold_left (fun sum review => sum + rv_rating review) reviews acc
  ≤ acc + 5 * Z.of_nat (length reviews).
Proof.
  intros Hall. revert acc.
  induction Hall as [|r rest Hr _ IH]; intros acc; cbn [fold_left length]; [lia|].
  specialize (IH (acc + rv_rating r)). lia.
Qed.

(** X14. [updateRating] on a product with reviews rated 1 to 5: the count
    is the number of reviews, the average has one decimal place, lies
    between 1 and 5 and is within 0.05 of the mean of the ratings; the
    reviews and the rest of the document are left alone. With no reviews,
    average and count are 0. *)
Theorem updateRating_average :
  ∀ d,
    doc_reviews d ≠ [] →
    Forall (fun r => 1 ≤ rv_rating r ≤ 5) (doc_reviews d) →
    let d' := updateRating d in
    let mean :=
      (inject_Z (fold_left (fun sum review => (sum + rv_rating review)%Z)
                           (doc_reviews d) 0%Z)
       / inject_Z (Z.of_nat (length (doc_reviews d))))%Q in
    rating_count d' = Z.of_nat (length (doc_reviews d))
    ∧ (1 <= rating_average d' <= 5)%Q
    ∧ (mean - (1 # 20) <= rating_average d' <= mean + (1 # 20))%Q
    ∧ (∃ k : Z, rating_average d' = inject_Z k / 10)%Q
    ∧ doc_reviews d' = doc_reviews d
    ∧ doc_core d' = doc_core d
    ∧ (∀ e, doc_reviews e = [] →
         rating_average (updateRating e) = 0%Q ∧ rating_count (updateRating e) = 0).
Proof.
  intros d Hne Hall d' mean.
  assert (Hempty : ∀ e, doc_reviews e = [] →
            rating_average (updateRating e) = 0%Q
            ∧ rating_count (updateRating e) = 0).
  { intros e He. unfold updateRating. by rewrite He. }
  subst d' mean. unfold updateRating.
  destruct (doc_reviews d) as [|r0 rest] eqn:Hrev; [done|].
  cbn [rating_count rating_average doc_reviews doc_core].
  pose proof (sum_ratings_bounds (r0 :: rest) 0 Hall) as Hsum.
  set (n := Z.of_nat (length (r0 :: rest))) in *.
  set (tot := fold_left _ (r0 :: rest) 0) in *.
  assert (Hn : 1 ≤ n) by (subst n; cbn [length]; lia).
  assert (HN : (1 <= inject_Z n)%Q).
  { change 1%Q with (inject_Z 1). by rewrite <- Zle_Qle. }
  set (mean := (inject_Z tot / inject_Z n)%Q).
  assert (Hm : (mean * inject_Z n == inject_Z tot)%Q).
  { unfold mean. field. intros H0. rewrite H0 in HN. lra. }
  assert (Hlo : (inject_Z n <= inject_Z tot)%Q) by (rewrite <- Zle_Qle; lia).
  assert (Hhi : (inject_Z tot <= 5 * inject_Z n)%Q).
  { change 5%Q with (inject_Z 5). rewrite <- inject_Z_mult, <- Zle_Qle. lia. }
  clearbody mean.
  assert (Hmean : (1 <= mean <= 5)%Q) by (split; nra).
  destruct (Math_round_spec (mean * 10)) as [Hr1 Hr2].
  set (k := Math_round (mean * 10)) in *. clearbody k.
  assert (Hk : 10 ≤ k ≤ 50).
  { split.
    - assert (H9 : (inject_Z 9 < inject_Z k)%Q).
      { change (inject_Z 9) with 9%Q. lra. }
      rewrite <- Zlt_Qlt in H9. lia.
    - assert (H51 : (inject_Z k < inject_Z 51)%Q).
      { change (inject_Z 51) with 51%Q. lra. }
      rewrite <- Zlt_Qlt in H51. lia. }
  assert (HK : (10 <= inject_Z k <= 50)%Q).
  { change 10%Q with (inject_Z 10). change 50%Q with (inject_Z 50).
    rewrite <- !Zle_Qle. lia. }
  split; [done|].
  split; [unfold Qdiv; change (/ 10)%Q with (1 # 10)%Q; split; lra|].
  split; [unfold Qdiv; change (/ 10)%Q with (1 # 10)%Q; split; lra|].
  split; [by exists k|]. split; [done|]. split; [done|]. exact Hempty.
Qed.

(** Ratings 5, 4 and 4: mean 4.33..., stored average 4.3. *)
Lemma updateRating_average_witness :
  let d := mkProductDoc (mkProduct "Ganesh Idol" 1000 true 3 true) 0 None 5
             [mkReview 7%N 5 "" 0; mkReview 8%N 4 "" 1; mkReview 9%N 4 "" 2] 0 0 in
  rating_count (updateRating d) = 3
  ∧ (rating_average (updateRating d) == 43 # 10)%Q
  ∧ (1 <= rating_average (updateRating d) <= 5)%Q.
Proof.
  intros d.
  destruct (updateRating_average d) as (Hc & Hb & _);
    [discriminate|repeat constructor; cbn; lia|].
  split; [exact Hc|]. split; [by vm_compute|exact Hb].
Defined.

(** ** Reviews *)

Lemma find_none_user (reviews : list Review) u :
  find (fun review => bool_decide (rv_user review = u)) reviews = None
  ↔ u ∉ rv_user <$> reviews.
Proof.
  induction reviews as [|r rest IH]; cbn [find fmap list_fmap].
  - split; [intros _; apply not_elem_of_nil|done].
  - rewrite not_elem_of_cons. case_bool_decide as Hr.
    + split; [done|]. intros [Hne _]. by destruct Hne.
    + rewrite IH. split; [|by intros [_ ?]]. intros Hn. split; [congruence|done].
Qed.

(** X15. POST /api/products/:id/reviews: a rating from 1 to 5, with a
    comment of at most 500 characters if any, by a user who has not
    reviewed the active product yet is answered 201; the review
    is appended, the rating count is the number of reviews, and the save
    also sets the stock flag to "quantity above zero". Any further review
    by the same user is refused and changes nothing, so in every case a
    product in which each user has at most one review stays that way. *)
Theorem addReview_once_per_user :
  ∀ now reqUser rating comment d,
    1 ≤ rating ≤ 5 →
    (∀ text, comment = Some text → (String.length text ≤ 500)%nat) →
    p_isActive (doc_core d) = true →
    reqUser ∉ rv_user <$> doc_reviews d →
    NoDup (rv_user <$> doc_reviews d) →
    ∃ d',
      addReview now reqUser rating comment (Some d)
      = (sendSuccessResponse 201 "Review added successfully" None, Some d')
      ∧ doc_reviews d'
        = doc_reviews d ++ [mkReview reqUser rating (or_default comment "") now]
      ∧ rating_count d' = Z.of_nat (length (doc_reviews d)) + 1
      ∧ stock_quantity (doc_core d') = stock_quantity (doc_core d)
      ∧ stock_isInStock (doc_core d') = (0 <? stock_quantity (doc_core d))
      ∧ NoDup (rv_user <$> doc_reviews d')
      ∧ (∀ now' rating' comment',
           res_success (fst (addReview now' reqUser rating' comment' (Some d')))
           = false
           ∧ snd (addReview now' reqUser rating' comment' (Some d')) = Some d'
           ∧ (1 ≤ rating' ≤ 5 →
              (∀ text, comment' = Some text → (String.length text ≤ 500)%nat) →
              fst (addReview now' reqUser rating' comment' (Some d'))
              = sendErrorResponse 400 "You have already reviewed this product")).
Proof.
  intros now reqUser rating comment d Hr Hc Ha Hnew Hnd.
  assert (Hok : ∀ z c, 1 ≤ z ≤ 5 →
            (∀ text, c = Some text → (String.length text ≤ 500)%nat) →
            reviewErrors z c = []).
  { intros z c Hz Hlen. unfold reviewErrors.
    rewrite (proj2 (Z.leb_le _ _) (proj1 Hz)), (proj2 (Z.leb_le _ _) (proj2 Hz)).
    destruct c as [text|]; [|done].
    by rewrite (proj2 (Nat.leb_le _ _) (Hlen text eq_refl)). }
  set (review := mkReview reqUser rating (or_default comment "") now).
  set (d' := ProductDoc_save
               (updateRating
                  (mkProductDoc (doc_core d) (doc_discount d) (doc_originalPrice d)
                     (doc_lowStockThreshold d) (doc_reviews d ++ [review])
                     (rating_average d) (rating_count d)))).
  assert (Hrev : doc_reviews d' = doc_reviews d ++ [review]).
  { subst d'. unfold updateRating. cbn [doc_reviews].
    by destruct (doc_reviews d ++ [review]). }
  assert (Hcore : doc_core d' = Product_preSave (doc_core d)).
  { subst d'. unfold updateRating. cbn [doc_reviews].
    by destruct (doc_reviews d ++ [review]). }
  exists d'. split.
  { unfold addReview. rewrite (Hok _ _ Hr Hc), Ha. cbn [negb bool_decide decide_rel].
    rewrite bool_decide_eq_true_2 by done. cbn [negb].
    by rewrite (proj2 (find_none_user _ _) Hnew). }
  split; [done|]. split.
  { subst d'. unfold updateRating. cbn [doc_reviews].
    destruct (doc_reviews d ++ [review]) eqn:Hl.
    - by destruct (doc_reviews d).
    - cbn [ProductDoc_save set_doc_core rating_count].
      rewrite <- Hl, length_app. cbn [length]. lia. }
  split; [by rewrite Hcore|]. split; [by rewrite Hcore|]. split.
  { rewrite Hrev, fmap_app. apply NoDup_app. split; [done|]. split.
    - intros u Hu Hu'. cbn in Hu'. apply list_elem_of_singleton in Hu'.
      by subst u.
    - apply NoDup_singleton. }
  intros now' rating' comment'.
  assert (Hfound : ∃ r, find (fun review => bool_decide (rv_user review = reqUser))
                          (doc_reviews d') = Some r).
  { destruct (find _ (doc_reviews d')) as [r|] eqn:Hf; [by eexists|].
    apply find_none_user in Hf. destruct Hf.
    rewrite Hrev, fmap_app. apply elem_of_app. right. apply list_elem_of_here. }
  destruct Hfound as [r Hf].
  assert (Ha' : p_isActive (doc_core d') = true) by by rewrite Hcore.
  unfold addReview. rewrite Ha', Hf. cbn [negb].
  split; [by destruct (negb (bool_decide _))|].
  split; [by destruct (negb (bool_decide _))|].
  intros Hr' Hc'. by rewrite (Hok _ _ Hr' Hc').
Qed.

(** User 8 reviews a product that user 7 has reviewed and whose stock
    flag is stale: the flag is repaired, and a second review is refused. *)
Lemma addReview_once_per_user_witness :
  let d := mkProductDoc (mkProduct "Ganesh Idol" 1000 true 0 true) 0 None 5
             [mkReview 7%N 5 "" 0] 5 1 in
  ∃ d',
    snd (addReview 3 8%N 4 None (Some d)) = Some d'
    ∧ rating_count d' = 2
    ∧ stock_isInStock (doc_core d') = false
    ∧ fst (addReview 4 8%N 5 None (Some d'))
      = sendErrorResponse 400 "You have already reviewed this product".
Proof.
  intros d.
  destruct (addReview_once_per_user 3 8%N 4 None d)
    as (d' & Heq & _ & Hc & _ & Hflag & _ & Hagain).
  - lia.
  - intros text [=].
  - reflexivity.
  - cbn. intros H. apply list_elem_of_singleton in H. discriminate H.
  - cbn. apply NoDup_singleton.
  - exists d'. split; [by rewrite Heq|]. split; [exact Hc|].
    split; [exact Hflag|]. apply Hagain; [lia|]. intros text [=].
Defined.

(** ** Soft deletion *)

Lemma createOrder_line_not_passing now newId pathsValid req db cartItems line :
  carts db !! req_user req = Some cartItems →
  line ∈ cartItems →
  linePasses (products db) line = false →
  res_success (fst (createOrder now newId pathsValid req db)) = false
  ∧ snd (createOrder now newId pathsValid req db) = db.
Proof.
  intros Hcart Hin Hline.
  by destruct (createOrder_inv now newId pathsValid req db) as (? & _ & ?).
Qed.

(** X16. DELETE /api/products/:id keeps the product stored, marks it
    inactive, keeps its quantity and (through the save hook) sets its stock
    flag to "quantity above zero"; no other product, cart or order is
    touched. From then on every placement from a cart that holds the
    product is refused without any change, with "Some products in cart are
    no longer available" when it is the cart's first line. *)
Theorem deleteProduct_blocks_orders :
  ∀ id db product,
    products db !! id = Some product →
    let db' := snd (deleteProduct id db) in
    products db' !! id
    = Some (mkProduct (p_name product) (p_price product) false
              (stock_quantity product) (0 <? stock_quantity product))
    ∧ (∀ id', id' ≠ id → products db' !! id' = products db !! id')
    ∧ carts db' = carts db
    ∧ orders db' = orders db
    ∧ (∀ now newId pathsValid req cartItems line,
         carts db' !! req_user req = Some cartItems →
         line ∈ cartItems →
         ci_product line = id →
         res_success (fst (createOrder now newId pathsValid req db')) = false
         ∧ snd (createOrder now newId pathsValid req db') = db'
         ∧ (req_validationErrors req = [] →
            (∃ rest, cartItems = line :: rest) →
            fst (createOrder now newId pathsValid req db')
            = sendErrorResponse 400
                "Some products in cart are no longer available")).
Proof.
  intros id db product Hp db'. subst db'. unfold deleteProduct. rewrite Hp.
  cbn [snd products carts orders].
  split; [by rewrite lookup_insert_eq|].
  split; [by intros id' Hne; rewrite lookup_insert_ne|].
  split; [done|]. split; [done|].
  intros now newId pathsValid req cartItems line Hcart Hin Hid.
  set (db' := mkDb _ _ _).
  assert (Hline : linePasses (products db') line = false).
  { unfold linePasses. subst db'. cbn [products]. by rewrite Hid, lookup_insert_eq. }
  destruct (createOrder_line_not_passing now newId pathsValid req db' cartItems
              line Hcart Hin Hline) as [H1 H2].
  split; [done|]. split; [done|].
  intros Hv [rest ->]. unfold createOrder.
  rewrite (bool_decide_eq_true_2 _ Hv). cbn [negb].
  change (carts db') with (carts db). rewrite Hcart. cbn [validateCartItems].
  subst db'. cbn [products]. by rewrite Hid, lookup_insert_eq.
Qed.

(** Product 1 is deleted while user 7 has it in the cart. *)
Lemma deleteProduct_blocks_orders_witness :
  let db' := snd (deleteProduct 1%N (shopDb [mkCartItem 1%N 2 1000])) in
  products db' !! 1%N = Some (mkProduct "Ganesh Idol" 1000 false 3 true)
  ∧ createOrder 0 9%N true (mkCreateOrderRequest 7%N [] cod) db'
    = (sendErrorResponse 400 "Some products in cart are no longer available", db').
Proof.
  intros db'.
  destruct (deleteProduct_blocks_orders 1%N (shopDb [mkCartItem 1%N 2 1000])
              (mkProduct "Ganesh Idol" 1000 true 3 true) eq_refl)
    as (Hp & _ & _ & _ & Hblock).
  split; [exact Hp|].
  destruct (Hblock 0 9%N true (mkCreateOrderRequest 7%N [] cod)
              [mkCartItem 1%N 2 1000] (mkCartItem 1%N 2 1000)
              eq_refl ltac:(apply list_elem_of_here) eq_refl) as (_ & Hdb & Hmsg).
  apply injective_projections; [|exact Hdb].
  apply Hmsg; [reflexivity|by eexists].
Defined.

(** ** Cart routes *)

Lemma quantityErrors_nil quantity :
  quantityErrors quantity = [] ↔ 1 ≤ quantity ≤ 10.
Proof.
  unfold quantityErrors.
  destruct (1 <=? quantity) eqn:H1; destruct (quantity <=? 10) eqn:H2; cbn;
    split; try done; try lia.
Qed.

Lemma sameText_true stored productId :
  sameText stored productId = true
  ↔ stored = id_value productId ∧ id_lowerCase productId = true.
Proof.
  unfold sameText. rewrite andb_true_iff, bool_decide_eq_true. tauto.
Qed.

Lemma findIndex_product_Some populated docs productId cartItems i :
  findIndex_product populated docs productId cartItems = Resolved (Some i) →
  ∃ item, cartItems !! i = Some item ∧ ci_product item = id_value productId
          ∧ id_lowerCase productId = true.
Proof.
  revert i. induction cartItems as [|c cs IH]; intros i; cbn [findIndex_product];
    [done|].
  destruct (populated && bool_decide (docs !! ci_product c = None)); [done|].
  destruct (sameText (ci_product c) productId) eqn:Hc.
  - intros [= <-]. apply sameText_true in Hc as [? ?]. by exists c.
  - destruct (findIndex_product populated docs productId cs) as [[j|]|]; try done.
    intros [= <-]. by apply IH.
Qed.

Lemma findIndex_product_None populated docs productId cartItems :
  findIndex_product populated docs productId cartItems = Resolved None →
  id_lowerCase productId = true →
  id_value productId ∉ ci_product <$> cartItems.
Proof.
  intros Hf Hlow. revert Hf.
  induction cartItems as [|c cs IH]; cbn [findIndex_product fmap list_fmap].
  - intros _. apply not_elem_of_nil.
  - destruct (populated && bool_decide (docs !! ci_product c = None)); [done|].
    destruct (sameText (ci_product c) productId) eqn:Hc; [done|].
    destruct (findIndex_product populated docs productId cs) as [[j|]|]; try done.
    intros _. apply not_elem_of_cons. split; [|by apply IH].
    intros Heq. by rewrite (proj2 (sameText_true _ _) (conj (eq_sym Heq) Hlow)) in Hc.
Qed.

Lemma set_ci_quantity_products (cartItems : list CartItem) (i : nat) item q :
  cartItems !! i = Some item →
  ci_product <$> <[i := set_ci_quantity q item]> cartItems = ci_product <$> cartItems.
Proof.
  intros Hi. rewrite list_fmap_insert. cbn [set_ci_quantity ci_product].
  apply list_insert_id. by rewrite list_lookup_fmap, Hi.
Qed.


Lemma set_ci_quantity_ok (cartItems : list CartItem) (i : nat) item q :
  cartItems !! i = Some item → 1 ≤ q ≤ 10 →
  cart_ok cartItems → cart_ok (<[i := set_ci_quantity q item]> cartItems).
Proof.
  intros Hi Hq [Hnd Hall]. split.
  - by rewrite set_ci_quantity_products.
  - by apply Forall_insert.
Qed.




(** X17. The cart routes keep a cart well formed, as long as a request to
    add a product spells its id in lower case: if the cart has one line per
    product and quantities from 1 to 10 before a request to add a product,
    to set a line's quantity, to remove a line or to clear the cart, it has
    so afterwards, whatever the answer. A request to add a product that is
    in the cart already, with an id spelled with an upper-case digit, is
    answered with a success and leaves two lines for the product. *)
Theorem cart_routes_keep_cart_ok :
  ∀ populated docs productId quantity cartItems,
    cart_ok cartItems →
    (id_lowerCase productId = true →
     cart_ok (snd (addItem populated docs productId quantity cartItems)))
    ∧ (∀ stored,
         snd (updateItem docs productId quantity (Some cartItems)) = Some stored
         ∨ snd (removeItem productId (Some cartItems)) = Some stored
         ∨ snd (clearCart (Some cartItems)) = Some stored →
         cart_ok stored)
    ∧ (id_lowerCase productId = false →
       id_value productId ∈ ci_product <$> cartItems →
       res_success (fst (addItem populated docs productId quantity cartItems))
       = true →
       ¬ cart_ok (snd (addItem populated docs productId quantity cartItems))).
Proof.
  intros populated docs productId quantity cartItems Hok. split; [|split].
  - intros Hlow. unfold addItem.
    destruct (bool_decide (quantityErrors quantity = [])) eqn:Hq; cbn [negb]; [|done].
    apply bool_decide_eq_true_1, quantityErrors_nil in Hq.
    destruct (docs !! id_value productId) as [d|] eqn:Hd; [|done].
    destruct (negb (p_isActive (doc_core d))); [done|].
    destruct (negb (stock_isInStock (doc_core d)) || _) eqn:Hs; [done|].
    apply orb_false_elim in Hs as [_ Hs%Z.ltb_ge].
    destruct (findIndex_product populated docs productId cartItems)
      as [[i|]|] eqn:Hf; cbn [snd]; [| |done].
    + apply findIndex_product_Some in Hf as (item & Hi & Hp & _). rewrite Hi.
      destruct (stock_quantity (doc_core d) <? _); [done|].
      destruct (10 <? ci_quantity item + quantity) eqn:H10; [done|].
      apply Z.ltb_ge in H10. cbn [snd]. apply set_ci_quantity_ok; [done| |done].
      destruct Hok as [_ Hall]. rewrite Forall_lookup in Hall.
      specialize (Hall _ _ Hi). cbn in Hall. lia.
    + apply findIndex_product_None in Hf; [|done]. destruct Hok as [Hnd Hall].
      split.
      * rewrite fmap_app. apply NoDup_app. split; [done|]. split.
        -- intros u Hu Hu'. cbn in Hu'. apply list_elem_of_singleton in Hu'.
           by subst u.
        -- apply NoDup_singleton.
      * apply Forall_app. split; [done|]. by apply Forall_singleton.
  - intros stored [H|[H|H]].
    + unfold updateItem in H.
      destruct (bool_decide (quantityErrors quantity = [])) eqn:Hq; cbn [negb] in H;
        [|by injection H as <-].
      apply bool_decide_eq_true_1, quantityErrors_nil in Hq.
      destruct (docs !! id_value productId) as [d|]; [|by injection H as <-].
      destruct (negb (p_isActive (doc_core d))); [by injection H as <-|].
      destruct (negb (stock_isInStock (doc_core d)) || _); [by injection H as <-|].
      destruct (findIndex_product true docs productId cartItems)
        as [[i|]|] eqn:Hf; cbn [snd] in H; try by injection H as <-.
      apply findIndex_product_Some in Hf as (item & Hi & Hp & _). rewrite Hi in H.
      injection H as <-. by apply set_ci_quantity_ok.
    + unfold removeItem in H. destruct Hok as [Hnd Hall].
      case_bool_decide; injection H as <-; [done|]. split.
      * eapply sublist_NoDup; [exact Hnd|]. apply fmap_sublist.
        apply (sublist_filter _).
      * rewrite Forall_forall in Hall. apply Forall_forall.
        intros item [_ Hin]%list_elem_of_filter. by apply Hall.
    + injection H as <-. split; [apply NoDup_nil_2|apply Forall_nil_2].
  - intros Hup Hin. unfold addItem.
    destruct (negb (bool_decide (quantityErrors quantity = []))); [done|].
    destruct (docs !! id_value productId) as [d|]; [|done].
    destruct (negb (p_isActive (doc_core d))); [done|].
    destruct (negb (stock_isInStock (doc_core d)) || _); [done|].
    destruct (findIndex_product populated docs productId cartItems)
      as [[i|]|] eqn:Hf; [| |done].
    + apply findIndex_product_Some in Hf as (_ & _ & _ & Hlow). congruence.
    + cbn [fst snd]. intros _ [Hnd _]. rewrite fmap_app in Hnd.
      apply NoDup_app in Hnd as (_ & Hdisj & _). apply (Hdisj _ Hin).
      apply list_elem_of_here.
Qed.

(** A cart with two of product 1: adding one more merges into the line
    and setting the quantity keeps the cart well formed; adding one more
    under an upper-case spelling of the id makes a second line. *)
Lemma cart_routes_keep_cart_ok_witness :
  let docs : gmap ObjectId ProductDoc :=
    {[ 171%N := mkProductDoc (mkProduct "Ganesh Idol" 1000 true 3 true)
                  0 None 5 [] 0 0 ]} in
  snd (addItem false docs (mkIdText 171%N true) 1 [mkCartItem 171%N 2 1000])
  = [mkCartItem 171%N 3 1000]
  ∧ cart_ok (snd (addItem false docs (mkIdText 171%N true) 1
                    [mkCartItem 171%N 2 1000]))
  ∧ cart_ok [mkCartItem 171%N 3 1000]
  ∧ snd (addItem false docs (mkIdText 171%N false) 2 [mkCartItem 171%N 2 1000])
    = [mkCartItem 171%N 2 1000; mkCartItem 171%N 2 1000]
  ∧ ¬ cart_ok (snd (addItem false docs (mkIdText 171%N false) 2
                      [mkCartItem 171%N 2 1000])).
Proof.
  intros docs.
  assert (Hok : cart_ok [mkCartItem 171%N 2 1000]).
  { split; [apply NoDup_singleton|]. apply Forall_singleton. cbn. lia. }
  destruct (cart_routes_keep_cart_ok false docs (mkIdText 171%N true) 1 _ Hok)
    as (Hadd & _ & _).
  destruct (cart_routes_keep_cart_ok true docs (mkIdText 171%N true) 3 _ Hok)
    as (_ & Hrest & _).
  destruct (cart_routes_keep_cart_ok false docs (mkIdText 171%N false) 2 _ Hok)
    as (_ & _ & Hupper).
  split; [reflexivity|]. split; [exact (Hadd eq_refl)|].
  split; [apply Hrest; left; reflexivity|]. split; [reflexivity|].
  apply Hupper; [reflexivity|apply list_elem_of_here|reflexivity].
Defined.



(** ** Cart validation *)

Section ValidateLoop.
Context (docs : gmap ObjectId ProductDoc).

Lemma validateLoop_cons item rest issues validItems :
  validateLoop docs (item :: rest) issues validItems
  = validateLoop docs rest (issues ++ fst (validateLine docs item))
                 (validItems ++ snd (validateLine docs item)).
Proof.
  unfold validateLine. cbn [validateLoop].
  destruct (docs !! ci_product item) as [d|]; [|by rewrite app_nil_r].
  destruct (negb (p_isActive (doc_core d))); [by rewrite app_nil_r|].
  destruct (negb (stock_isInStock (doc_core d)) || _); [by rewrite app_nil_r|].
  destruct (stock_quantity (doc_core d) <? ci_quantity item);
    destruct (deviates _ _); cbn [fst snd app];
    by rewrite ?app_nil_r, <- ?app_assoc.
Qed.

Lemma validateLoop_spec cartItems issues validItems :
  validateLoop docs cartItems issues validItems
  = (issues ++ (cartItems ≫= fun item => fst (validateLine docs item)),
     validItems ++ (cartItems ≫= fun item => snd (validateLine docs item))).
Proof.
  revert issues validItems.
  induction cartItems as [|item rest IH]; intros issues validItems.
  - cbn. by rewrite !app_nil_r.
  - rewrite validateLoop_cons, IH. cbn [mbind list_bind].
    by rewrite <- !app_assoc.
Qed.

(** A line that is not kept yields one issue that removes it. *)
Lemma validateLine_removed item :
  lineKept docs item = false →
  snd (validateLine docs item) = []
  ∧ ∃ issue, fst (validateLine docs item) = [issue] ∧ removesLine issue = true.
Proof.
  unfold lineKept, validateLine. cbn [validateLoop].
  destruct (docs !! ci_product item) as [d|]; [|intros _; split; [done|by eexists]].
  destruct (p_isActive (doc_core d)); cbn [negb andb];
    [|intros _; split; [done|by eexists]].
  destruct (stock_isInStock (doc_core d)); cbn [negb andb orb];
    [|intros _; split; [done|by eexists]].
  destruct (stock_quantity (doc_core d) =? 0); [|done].
  intros _; split; [done|by eexists].
Qed.

(** A line that is kept yields one valid line, and no issue that removes
    a line. *)
Lemma validateLine_kept item :
  lineKept docs item = true →
  ∃ d item',
    docs !! ci_product item = Some d
    ∧ snd (validateLine docs item) = [item']
    ∧ ci_product item' = ci_product item
    ∧ linePasses (cores docs) item' = true
    ∧ priceCurrent docs item' = true
    ∧ existsb removesLine (fst (validateLine docs item)) = false
    ∧ (lineCovered docs item = false →
       insufficient_stock (ci_product item) (p_name (doc_core d))
         (ci_quantity item) (stock_quantity (doc_core d))
       ∈ fst (validateLine docs item))
    ∧ (fst (validateLine docs item) = []
       ↔ lineCovered docs item = true ∧ priceCurrent docs item = true)
    ∧ (fst (validateLine docs item) = [] → item' = item).
Proof.
  unfold lineKept, lineCovered, priceCurrent, linePasses, stockCheckFails, cores,
    validateLine.
  cbn [validateLoop].
  destruct (docs !! ci_product item) as [d|] eqn:Hd; [|done].
  destruct (p_isActive (doc_core d)) eqn:Ha; cbn [negb andb]; [|done].
  destruct (stock_isInStock (doc_core d)) eqn:Hf; cbn [negb andb orb]; [|done].
  destruct (stock_quantity (doc_core d) =? 0) eqn:H0; [done|]. intros _.
  exists d. rewrite Z.leb_antisym.
  destruct (stock_quantity (doc_core d) <? ci_quantity item) eqn:Hs;
    destruct (deviates (ci_price item) (currentPrice d)) eqn:Hp;
    cbn [negb fst snd app existsb removesLine orb ci_product ci_quantity ci_price];
    eexists; (split; [done|]); (split; [reflexivity|]);
    cbn [ci_product ci_quantity ci_price]; rewrite lookup_fmap, Hd;
    cbn [fmap option_fmap option_map];
    rewrite Ha, Hf, ?Hs, ?Z.ltb_irrefl, ?deviates_same, ?Hp; cbn [negb andb orb];
    repeat split; try done; try (by intros [? ?]);
    try (intros _; apply list_elem_of_here); try (intros _; by destruct item).
Qed.

Lemma validateLoop_all_kept cartItems :
  Forall (fun l => lineKept docs l = true) cartItems →
  existsb removesLine (fst (validateLoop docs cartItems [] [])) = false.
Proof.
  rewrite validateLoop_spec. cbn [fst app].
  induction 1 as [|item rest Hk _ IH]; [done|].
  cbn [mbind list_bind]. rewrite existsb_app.
  destruct (validateLine_kept item Hk) as (d & item' & _ & _ & _ & _ & _ & -> & _).
  exact IH.
Qed.





Lemma validateLoop_short_line cartItems line d :
  Forall (fun l => lineKept docs l = true) cartItems →
  line ∈ cartItems →
  docs !! ci_product line = Some d →
  stock_quantity (doc_core d) < ci_quantity line →
  insufficient_stock (ci_product line) (p_name (doc_core d))
    (ci_quantity line) (stock_quantity (doc_core d))
  ∈ fst (validateLoop docs cartItems [] []).
Proof.
  rewrite validateLoop_spec. cbn [fst app].
  intros Hall Hin Hd Hs. rewrite Forall_forall in Hall.
  apply list_elem_of_bind. exists line. split; [|done].
  destruct (validateLine_kept line (Hall _ Hin))
    as (d' & item' & Hd' & _ & _ & _ & _ & _ & Hshort & _).
  rewrite Hd in Hd'. injection Hd' as <-. apply Hshort.
  unfold lineCovered. rewrite Hd. by apply Z.leb_gt.
Qed.

End ValidateLoop.








(** X21. A quantity adjustment that POST /api/cart/validate reports is
    not stored unless some line is removed: if every line's product is
    stored, active and in stock but one line asks for more than the stock
    quantity, the answer is not valid and names the line with the available
    quantity, the cart stays as it was, and a placement request for it is
    still refused without any change. *)
Theorem validateCart_adjustment_not_stored :
  ∀ docs db now newId pathsValid req cartItems line d,
    products db = cores docs →
    carts db !! req_user req = Some cartItems →
    Forall (fun l => lineKept docs l = true) cartItems →
    line ∈ cartItems →
    docs !! ci_product line = Some d →
    stock_quantity (doc_core d) < ci_quantity line →
    let r := validateCart docs (Some cartItems) in
    isValid (fst r) = false
    ∧ insufficient_stock (ci_product line) (p_name (doc_core d))
        (ci_quantity line) (stock_quantity (doc_core d)) ∈ v_issues (fst r)
    ∧ v_cart (fst r) = Some cartItems
    ∧ snd r = Some cartItems
    ∧ res_success (fst (createOrder now newId pathsValid req db)) = false
    ∧ snd (createOrder now newId pathsValid req db) = db.
Proof.
  intros docs db now newId pathsValid req cartItems line d Hps Hcart Hall Hin Hd Hs r.
  pose proof (validateLoop_all_kept docs cartItems Hall) as Hkept.
  pose proof (validateLoop_short_line docs cartItems line d Hall Hin Hd Hs) as Hissue.
  assert (Hline : linePasses (products db) line = false).
  { rewrite Hps. unfold linePasses, stockCheckFails, cores.
    rewrite lookup_fmap, Hd. cbn [fmap option_fmap option_map].
    rewrite (proj2 (Z.ltb_lt _ _) Hs). by rewrite orb_true_r, andb_false_r. }
  destruct (createOrder_line_not_passing now newId pathsValid req db cartItems
              line Hcart Hin Hline) as [H1 H2].
  subst r. unfold validateCart.
  destruct cartItems as [|item rest]; [by apply elem_of_nil in Hin|].
  destruct (validateLoop docs (item :: rest) [] []) as [issues validItems].
  cbn [fst snd] in *. rewrite Hkept.
  destruct issues as [|issue issues]; [by apply elem_of_nil in Hissue|].
  by cbn [fst snd v_cart isValid v_issues].
Qed.

(** User 7 holds five of product 1, of which three are in stock. *)
Lemma validateCart_adjustment_not_stored_witness :
  let docs : gmap ObjectId ProductDoc :=
    {[ 1%N := mkProductDoc (mkProduct "Ganesh Idol" 1000 true 3 true) 0 None 5 [] 0 0 ]} in
  let db := mkDb (cores docs) {[ 7%N := [mkCartItem 1%N 5 1000] ]} [] in
  v_issues (fst (validateCart docs (Some [mkCartItem 1%N 5 1000])))
  = [insufficient_stock 1%N "Ganesh Idol" 5 3]
  ∧ snd (validateCart docs (Some [mkCartItem 1%N 5 1000]))
    = Some [mkCartItem 1%N 5 1000]
  ∧ snd (createOrder 0 9%N true (mkCreateOrderRequest 7%N [] cod) db) = db.
Proof.
  intros docs db.
  destruct (validateCart_adjustment_not_stored docs db 0 9%N true
              (mkCreateOrderRequest 7%N [] cod) [mkCartItem 1%N 5 1000]
              (mkCartItem 1%N 5 1000)
              (mkProductDoc (mkProduct "Ganesh Idol" 1000 true 3 true) 0 None 5 [] 0 0))
    as (_ & _ & _ & Hstored & _ & Hdb); try reflexivity.
  - by constructor.
  - apply list_elem_of_here.
  - split; [reflexivity|]. split; [exact Hstored|exact Hdb].
Defined.

Lemma validateLine_quantity docs item :
  lineKept docs item = true →
  ∃ d item',
    docs !! ci_product item = Some d
    ∧ snd (validateLine docs item) = [item']
    ∧ stock_quantity (doc_core d) ≠ 0
    ∧ ci_quantity item' = Z.min (ci_quantity item) (stock_quantity (doc_core d)).
Proof.
  unfold lineKept, validateLine. cbn [validateLoop].
  destruct (docs !! ci_product item) as [d|] eqn:Hd; [|done].
  destruct (p_isActive (doc_core d)); cbn [negb andb]; [|done].
  destruct (stock_isInStock (doc_core d)); cbn [negb andb orb]; [|done].
  destruct (stock_quantity (doc_core d) =? 0) eqn:H0; [done|]. intros _.
  apply Z.eqb_neq in H0. exists d.
  destruct (stock_quantity (doc_core d) <? ci_quantity item) eqn:Hs;
    [apply Z.ltb_lt in Hs|apply Z.ltb_ge in Hs];
    destruct (deviates _ _); cbn [snd app]; eexists;
    (split; [done|]); (split; [reflexivity|]); (split; [done|]);
    cbn [ci_quantity]; lia.
Qed.

(** X22. POST /api/cart/validate keeps a cart well formed as long as no
    stock quantity is below zero: a cart with one line per product and
    quantities from 1 to 10 is stored as such a cart. *)
Theorem validateCart_keeps_cart_ok :
  ∀ docs cartItems stored,
    docs_stock_nonneg docs →
    cart_ok cartItems →
    snd (validateCart docs (Some cartItems)) = Some stored →
    cart_ok stored.
Proof.
  intros docs cartItems stored Hstock Hok.
  assert (Hvalid : cart_ok (snd (validateLoop docs cartItems [] []))).
  { rewrite validateLoop_spec. cbn [snd app]. destruct Hok as [Hnd Hall].
    induction cartItems as [|item rest IH]; [by split; [constructor|]|].
    cbn [fmap list_fmap] in Hnd. apply NoDup_cons in Hnd as [Hnew Hnd].
    apply Forall_cons in Hall as [Hq Hall].
    destruct (IH Hnd Hall) as [IHnd IHall]. cbn [mbind list_bind].
    destruct (lineKept docs item) eqn:Hk.
    - destruct (validateLine_kept docs item Hk)
        as (d & item' & Hd & Hsnd & Hp & _).
      destruct (validateLine_quantity docs item Hk)
        as (d' & item'' & Hd' & Hsnd' & Hne & Hmin).
      rewrite Hsnd in Hsnd'. injection Hsnd' as <-.
      rewrite Hsnd. cbn [app]. split.
      + cbn [fmap list_fmap]. apply NoDup_cons. split; [|done].
        rewrite Hp. intros Hin. apply Hnew.
        apply list_elem_of_fmap in Hin as (l & -> & Hin).
        apply list_elem_of_bind in Hin as (l0 & Hin & Hl0).
        destruct (lineKept docs l0) eqn:Hk0.
        * destruct (validateLine_kept docs l0 Hk0)
            as (? & l' & _ & Hs0 & Hp0 & _).
          rewrite Hs0 in Hin. apply list_elem_of_singleton in Hin. subst l'.
          rewrite Hp0. apply list_elem_of_fmap. by exists l0.
        * destruct (validateLine_removed docs l0 Hk0) as [Hs0 _].
          rewrite Hs0 in Hin. by apply elem_of_nil in Hin.
      + apply Forall_cons. split; [|done]. rewrite Hmin.
        specialize (Hstock _ _ Hd'). lia.
    - destruct (validateLine_removed docs item Hk) as [-> _]. by split. }
  unfold validateCart. destruct cartItems as [|item rest]; [by intros [= <-]|].
  destruct (validateLoop docs (item :: rest) [] []) as [issues validItems].
  cbn [snd] in Hvalid.
  destruct issues as [|issue issues]; cbn [snd existsb]; intros [= <-]; [done|].
  by case_match.
Qed.

(** A cart with five of a product that has three in stock and one of a
    deleted product is stored as a cart with three of the first. *)
Lemma validateCart_keeps_cart_ok_witness :
  let docs : gmap ObjectId ProductDoc :=
    {[ 1%N := mkProductDoc (mkProduct "Ganesh Idol" 1000 true 3 true) 0 None 5 [] 0 0;
       2%N := mkProductDoc (mkProduct "Krishna Idol" 500 false 4 true) 0 None 5 [] 0 0 ]} in
  cart_ok [mkCartItem 1%N 3 1000].
Proof.
  intros docs.
  apply (validateCart_keeps_cart_ok docs
           [mkCartItem 1%N 5 1000; mkCartItem 2%N 1 500]).
  - intros id d Hd. apply lookup_insert_Some in Hd as [[_ <-]|[_ Hd]]; [cbn; lia|].
    apply lookup_singleton_Some in Hd as [_ <-]. cbn. lia.
  - split.
    + cbn. apply NoDup_cons. split; [|apply NoDup_singleton].
      intros H. apply list_elem_of_singleton in H. discriminate H.
    + repeat constructor; cbn; lia.
  - reflexivity.
Defined.

(** ** Ownership *)

Section Others.
Context (reqUser : ObjectId).

Lemma saveFound_others p o o' l :
  findOne p l = Some o →
  user o = reqUser → user o' = reqUser →
  othersOrders reqUser (saveFound p o' l) = othersOrders reqUser l.
Proof.
  intros (pre & post & -> & Hpre & Ho)%findOne_split Hu Hu'.
  rewrite saveFound_app by done. unfold othersOrders.
  rewrite !filter_app, !filter_cons.
  rewrite !decide_False; [done| |]; intros Hne; by apply Hne.
Qed.

End Others.

(** X23. The requests of a user who is not an administrator leave the
    orders of all other users as they are: cancelling, creating a payment
    intent, confirming a payment, asking for a refund and placing an order
    change no stored order of another user, whatever they answer. When the
    order with the requested id belongs to another user, cancelling and
    creating a payment intent answer 403 and change nothing. *)
Theorem user_requests_leave_other_orders :
  ∀ now reqUser db,
    (∀ orderId reason,
       othersOrders reqUser (orders (snd (cancelOrder now reqUser orderId reason db)))
       = othersOrders reqUser (orders db))
    ∧ (∀ orderId existingIntent created,
         othersOrders reqUser
           (orders (snd (createPaymentIntent reqUser orderId [] existingIntent
                           created db)))
         = othersOrders reqUser (orders db))
    ∧ (∀ intentId intentStatus,
         othersOrders reqUser
           (orders (snd (confirmPayment now reqUser intentId intentStatus db)))
         = othersOrders reqUser (orders db))
    ∧ (∀ shownAmount refund req,
         rf_user req = reqUser → rf_isAdmin req = false →
         othersOrders reqUser
           (orders (snd (processRefund now shownAmount refund req db)))
         = othersOrders reqUser (orders db))
    ∧ (∀ newId pathsValid req,
         req_user req = reqUser →
         othersOrders reqUser
           (orders (snd (createOrder now newId pathsValid req db)))
         = othersOrders reqUser (orders db))
    ∧ (∀ orderId order reason existingIntent created,
         findOne (hasId orderId) (orders db) = Some order →
         user order ≠ reqUser →
         cancelOrder now reqUser orderId reason db
         = (sendErrorResponse 403 "Access denied", db)
         ∧ createPaymentIntent reqUser orderId [] existingIntent created db
           = (sendErrorResponse 403 "Access denied", db)).
Proof.
  intros now reqUser db. repeat apply conj.
  - intros orderId reason. unfold cancelOrder.
    destruct (findOne _ _) as [order|] eqn:Hfind; [|done].
    case_bool_decide as Hu; cbn [negb]; [|done].
    destruct (negb (includes _ _)); [done|]. cbn [snd orders].
    by eapply saveFound_others.
  - intros orderId existingIntent created. unfold createPaymentIntent.
    cbn [bool_decide decide_rel negb].
    rewrite bool_decide_eq_true_2 by done. cbn [negb].
    destruct (findOne _ _) as [order|] eqn:Hfind; [|done].
    case_bool_decide as Hu; cbn [negb]; [|done].
    destruct (negb (bool_decide _)); [done|].
    repeat case_match; cbn [snd orders]; try done;
      by eapply saveFound_others.
  - intros intentId intentStatus. unfold confirmPayment.
    destruct (findOne _ _) as [order|] eqn:Hfind; [|done].
    assert (Hu : user order = reqUser).
    { apply find_some in Hfind as [_ Hp].
      apply andb_prop in Hp as [_ Hp]. by apply bool_decide_eq_true_1 in Hp. }
    destruct intentStatus; cbn [snd orders]; try done;
      by eapply saveFound_others.
  - intros shownAmount refund req Hreq Hadmin. unfold processRefund.
    destruct (negb (bool_decide (rf_validationErrors req = []))); [done|].
    destruct (findOne _ _) as [order|] eqn:Hfind; [|done].
    rewrite Hadmin, Hreq. cbn [negb andb].
    case_bool_decide as Hu; cbn [negb]; [|done].
    repeat case_match; cbn [snd orders]; try done;
      by eapply saveFound_others.
  - intros newId pathsValid req Hreq.
    by destruct (createOrder_inv now newId pathsValid req db) as (_ & _ & ->).
  - intros orderId order reason existingIntent created Hfind Hne. split.
    + unfold cancelOrder. rewrite Hfind. by rewrite bool_decide_eq_false_2.
    + unfold createPaymentIntent. rewrite bool_decide_eq_true_2 by done.
      cbn [negb]. rewrite Hfind. by rewrite bool_decide_eq_false_2.
Qed.

(** User 8 cannot cancel the pending order 9 of user 7, nor start a
    payment for it. *)
Lemma user_requests_leave_other_orders_witness :
  cancelOrder 5 8%N 9%N None (sampleDb pending)
  = (sendErrorResponse 403 "Access denied", sampleDb pending)
  ∧ createPaymentIntent 8%N 9%N [] None (ProviderOk "pi_2") (sampleDb pending)
    = (sendErrorResponse 403 "Access denied", sampleDb pending).
Proof.
  destruct (user_requests_leave_other_orders 5 8%N (sampleDb pending))
    as (_ & _ & _ & _ & _ & H).
  apply (H 9%N (sampleOrder pending)); [reflexivity|discriminate].
Defined.
